(** * pyoframe: the model orchestrator and its constants

    A shallow embedding of [src/pyoframe/constants.py] and
    [src/pyoframe/model.py].

    - Python objects are values of one dynamically typed universe [Value];
      an instance's attributes are a [gmap string Value] (its [__dict__]).
    - A method that mutates [self] or raises is a function from the state
      to an [Outcome]: it either returns or raises, and in both cases hands
      back the state it left behind (a Python exception does not roll back
      the assignments made before it).
    - The solver adapters (pyoptinterface), the element classes of
      [pyoframe.core], [pyoframe.model_element], [pyoframe.objective] and
      [pyoframe.util], and the file system are collaborators of the two
      modules; they enter as the fields of the class [Collaborators] or
      as small explicit models, each documented where it is declared. *)

From Stdlib Require Import ZArith Ascii String List.
From stdpp Require Import gmap strings list fin_maps.

Set Warnings "-register-all".
Local Open Scope string_scope.
Local Open Scope Z_scope.

(** ** Python exceptions and results *)

Module py.

Inductive ExcClass :=
| ValueError
| RuntimeError
| NotImplementedError
| AssertionError
| AttributeError
| TypeError
| PyoframeError
| FileExistsError
| FileNotFoundError
| NotADirectoryError
| OtherError (cls : string).

Record Exception := Exc { exc_class : ExcClass; exc_msg : string }.

(** [issubclass(c, RuntimeError)]: in Python [NotImplementedError] derives
    from [RuntimeError], so an [except RuntimeError] clause catches both. *)
Definition issubclass_RuntimeError (c : ExcClass) : bool :=
  match c with
  | RuntimeError | NotImplementedError => true
  | _ => false
  end.

(** A computation without side effects that may raise. *)
Inductive Result (A : Type) :=
| Ok (a : A)
| Err (e : Exception).
Arguments Ok {A} a.
Arguments Err {A} e.

Definition rbind {A B} (r : Result A) (k : A -> Result B) : Result B :=
  match r with
  | Ok a => k a
  | Err e => Err e
  end.

(** [str.lower()] on the ASCII range.  A string is the sequence of the
    bytes of its UTF-8 encoding; the bytes of a character outside ASCII are
    left as they are, so [lower] is [str.lower()] on the strings for which
    [isascii] holds, and on the others it agrees with it on their ASCII
    letters only. *)
Definition lower_ascii (c : ascii) : ascii :=
  let n := nat_of_ascii c in
  if (Nat.leb 65 n && Nat.leb n 90)%bool then ascii_of_nat (n + 32) else c.

Fixpoint lower (s : string) : string :=
  match s with
  | EmptyString => EmptyString
  | String c rest => String (lower_ascii c) (lower rest)
  end.

(** [str.isascii()] *)
Fixpoint isascii (s : string) : bool :=
  match s with
  | EmptyString => true
  | String c rest => Nat.ltb (nat_of_ascii c) 128 && isascii rest
  end.

(** [s.startswith("_")] *)
Definition startswith_underscore (s : string) : bool :=
  match s with
  | String "_"%char _ => true
  | _ => false
  end.

End py.
Export py.

(** ** The solver adapter's vocabulary (pyoptinterface)

    Only the members that pyoframe names are listed. *)

Module poi.

Module ConstraintSense.
Inductive t := LessEqual | Equal | GreaterEqual.
End ConstraintSense.

Module ObjectiveSense.
Inductive t := Minimize | Maximize.
End ObjectiveSense.

Module VariableDomain.
Inductive t := Continuous | Binary | Integer.
End VariableDomain.

(** A variable as the adapter holds it: [add_variable(lb, ub, name)]
    returns a handle whose [index] the solver chooses. *)
Record VariableIndex := mkVariableIndex {
  index : Z;
  lb : Z;
  ub : Z;
  name : string
}.

(** An adapter model: which solver it wraps and the variables added so
    far, oldest first. *)
Record Model := mkModel {
  solver : string;
  variables : list VariableIndex
}.

End poi.

(** ** constants.py: the enums *)

Module ConstraintSense.

Inductive t := LE | GE | EQ.

#[global] Instance eq_dec : EqDecision t.
Proof. solve_decision. Defined.

(** [str(self)], as the f-string of the error branch prints it. *)
Definition str (self : t) : string :=
  match self with
  | LE => "ConstraintSense.LE"
  | GE => "ConstraintSense.GE"
  | EQ => "ConstraintSense.EQ"
  end.

Definition to_poi (self : t) : Result poi.ConstraintSense.t :=
  if bool_decide (self = LE) then Ok poi.ConstraintSense.LessEqual
  else if bool_decide (self = EQ) then Ok poi.ConstraintSense.Equal
  else if bool_decide (self = GE) then Ok poi.ConstraintSense.GreaterEqual
  else Err (Exc ValueError ("Invalid constraint type: " ++ str self)).

End ConstraintSense.

Module ObjSense.

Inductive t := MIN | MAX.

#[global] Instance eq_dec : EqDecision t.
Proof. solve_decision. Defined.

Definition str (self : t) : string :=
  match self with
  | MIN => "ObjSense.MIN"
  | MAX => "ObjSense.MAX"
  end.

Definition to_poi (self : t) : Result poi.ObjectiveSense.t :=
  if bool_decide (self = MIN) then Ok poi.ObjectiveSense.Minimize
  else if bool_decide (self = MAX) then Ok poi.ObjectiveSense.Maximize
  else Err (Exc ValueError ("Invalid objective sense: " ++ str self)).

(** [ObjSense(value)]: the enum's lookup by value. *)
Definition of_value (value : string) : Result t :=
  if String.eqb value "min" then Ok MIN
  else if String.eqb value "max" then Ok MAX
  else Err (Exc ValueError (value ++ " is not a valid ObjSense")).

End ObjSense.

Module VType.

Inductive t := CONTINUOUS | BINARY | INTEGER.

#[global] Instance eq_dec : EqDecision t.
Proof. solve_decision. Defined.

Definition str (self : t) : string :=
  match self with
  | CONTINUOUS => "VType.CONTINUOUS"
  | BINARY => "VType.BINARY"
  | INTEGER => "VType.INTEGER"
  end.

Definition to_poi (self : t) : Result poi.VariableDomain.t :=
  if bool_decide (self = CONTINUOUS) then Ok poi.VariableDomain.Continuous
  else if bool_decide (self = BINARY) then Ok poi.VariableDomain.Binary
  else if bool_decide (self = INTEGER) then Ok poi.VariableDomain.Integer
  else Err (Exc ValueError ("Invalid variable type: " ++ str self)).

End VType.

(** ** Python values

    The classes that [model.py] imports and tests with [isinstance].

    Modelled from the spec: the class declarations live in
    [pyoframe.core], [pyoframe.model_element] and [pyoframe.objective],
    which are not part of the sources at hand.  Following the data model of
    the specification, Variable and Constraint are the ID-bearing elements
    (subclasses of ModelElementWithId, itself a ModelElement), and an
    Objective is an expression, hence a ModelElement without IDs. *)

Inductive PyClass :=
| cls_Variable
| cls_Constraint
| cls_ModelElementWithId    (* any other ID-bearing element *)
| cls_ModelElement          (* any other element: Expression, Set, ... *)
| cls_polars_DataFrame
| cls_pandas_DataFrame
| cls_object.               (* an instance of any other class *)

(** An object is a reference: its class and its identity.  What the object
    holds inside (an element's table, its IDs, its back-reference to the
    model) is part of the [World] of the collaborators.  An Objective also
    shows its [_constructive] flag, which the objective setter reads. *)
Inductive Value :=
| VNone
| VBool (b : bool)
| VInt (z : Z)
| VFloat (mantissa exponent : Z)      (* the literal mantissa * 10^exponent *)
| VStr (s : string)
| VObjSense (s : ObjSense.t)
| VList (l : list Value)
| VDict (d : list (string * Value))   (* a dict with string keys, in insertion order *)
| VClassMethod (fname : string)
| VPoi (p : poi.Model)
| VInstance (c : PyClass) (id : nat)
| VObjective (_constructive : bool) (id : nat)
| VNamedVariableMapper (id : nat)
| VContainer (setter getter : string)
| VOpaque (id : nat).                 (* any other object *)

Definition is_None (v : Value) : bool :=
  match v with VNone => true | _ => false end.

(** [bool(v)] for the values whose truth the code tests. *)
Definition truthy (v : Value) : bool :=
  match v with
  | VNone => false
  | VBool b => b
  | VInt z => negb (z =? 0)
  | VFloat m _ => negb (m =? 0)
  | VStr s => negb (String.eqb s EmptyString)
  | VList l => match l with [] => false | _ => true end
  | VDict d => match d with [] => false | _ => true end
  | _ => true
  end.

Definition isinstance_ModelElementWithId (v : Value) : bool :=
  match v with
  | VInstance (cls_Variable | cls_Constraint | cls_ModelElementWithId) _ => true
  | _ => false
  end.

Definition isinstance_ModelElement (v : Value) : bool :=
  match v with
  | VInstance (cls_Variable | cls_Constraint | cls_ModelElementWithId
               | cls_ModelElement) _ => true
  | VObjective _ _ => true
  | _ => false
  end.

Definition isinstance_Variable (v : Value) : bool :=
  match v with VInstance cls_Variable _ => true | _ => false end.

Definition isinstance_Constraint (v : Value) : bool :=
  match v with VInstance cls_Constraint _ => true | _ => false end.

Definition isinstance_DataFrame (v : Value) : bool :=
  match v with
  | VInstance (cls_polars_DataFrame | cls_pandas_DataFrame) _ => true
  | _ => false
  end.

Definition isinstance_Objective (v : Value) : bool :=
  match v with VObjective _ _ => true | _ => false end.

(** [value._constructive], read only once [value] is known to be an
    Objective. *)
Definition _constructive_of (v : Value) : bool :=
  match v with VObjective c _ => c | _ => false end.

(** [v == member] and [v != member] against a member of the enum ObjSense:
    an Enum compares by identity. *)
Definition eq_ObjSense (v : Value) (member : ObjSense.t) : bool :=
  match v with
  | VObjSense s => bool_decide (s = member)
  | _ => false
  end.

(** ** The file system behind [pathlib]

    A path is the list of its components, innermost first:
    [Path("/out/run/model.lp")] is ["model.lp"; "run"; "out"] and the root
    is [[]].  [Path.parent] drops the innermost component, and the parent
    of the root is the root. *)

Module pathlib.

Definition Path := list string.

Inductive Node := Dir | File (content : string).

Definition FileSystem := gmap (list string) Node.

Definition parent (p : Path) : Path := tail p.

(** What is stored at [p]; the root is always a directory. *)
Definition node_at (fs : gmap (list string) Node) (p : Path) : option Node :=
  match p with
  | [] => Some Dir
  | _ => fs !! p
  end.

Definition is_dir (fs : gmap (list string) Node) (p : Path) : bool :=
  match node_at fs p with Some Dir => true | _ => false end.

Definition is_file (fs : gmap (list string) Node) (p : Path) : bool :=
  match node_at fs p with Some (File _) => true | _ => false end.

(** [os.mkdir(p)] *)
Definition os_mkdir (p : Path) (fs : gmap (list string) Node)
  : Result (gmap (list string) Node) :=
  match node_at fs p with
  | Some _ => Err (Exc FileExistsError "File exists")
  | None =>
      match node_at fs (parent p) with
      | None => Err (Exc FileNotFoundError "No such file or directory")
      | Some (File _) => Err (Exc NotADirectoryError "Not a directory")
      | Some Dir => Ok (<[p := Dir]> fs)
      end
  end.

(** [Path.mkdir(parents=False, exist_ok=exist_ok)] *)
Definition mkdir_flat (exist_ok : bool) (p : Path) (fs : gmap (list string) Node)
  : Result (gmap (list string) Node) :=
  match os_mkdir p fs with
  | Ok fs' => Ok fs'
  | Err e =>
      match exc_class e with
      | FileNotFoundError => Err e
      | _ => if (negb exist_ok || negb (is_dir fs p))%bool then Err e else Ok fs
      end
  end.

(** [Path.mkdir(parents=True, exist_ok=exist_ok)]: when a parent is
    missing, create the parent with [parents=True, exist_ok=True] and then
    the directory itself. *)
Fixpoint mkdir_parents (exist_ok : bool) (p : Path) (fs : gmap (list string) Node)
  : Result (gmap (list string) Node) :=
  match os_mkdir p fs with
  | Ok fs' => Ok fs'
  | Err e =>
      match exc_class e with
      | FileNotFoundError =>
          match p with
          | [] => Err e
          | _ :: up => rbind (mkdir_parents true up fs) (mkdir_flat exist_ok p)
          end
      | _ => if (negb exist_ok || negb (is_dir fs p))%bool then Err e else Ok fs
      end
  end.

(** [name.rfind(".")]: the position of the last dot, if any. *)
Fixpoint rfind_dot (s : string) : option nat :=
  match s with
  | EmptyString => None
  | String c rest =>
      match rfind_dot rest with
      | Some i => Some (S i)
      | None => if Ascii.eqb c "."%char then Some O else None
      end
  end.

(** [Path.suffix]: the last dot-separated part of the final component,
    with its dot; empty when the name has no dot, starts with its only dot
    or ends with one. *)
Definition suffix (p : Path) : string :=
  match p with
  | [] => EmptyString
  | name :: _ =>
      match rfind_dot name with
      | Some i =>
          if (Nat.ltb 0 i && Nat.ltb i (String.length name - 1))%bool
          then String.substring i (String.length name - i) name
          else EmptyString
      | None => EmptyString
      end
  end.

End pathlib.

(** ** constants.py: module constants and the Config class *)

Definition SUPPORTED_SOLVERS : list string := ["gurobi"; "highs"; "ipopt"].

(** Variable ID for constant terms. This variable ID is reserved. *)
Definition CONST_TERM : Z := 0.

Module _ConfigMeta.

(** [type(v) != classmethod] *)
Definition not_classmethod (v : Value) : bool :=
  match v with VClassMethod _ => false | _ => true end.

(** The metaclass initialiser, as it runs when the class statement of Config
    is executed: it stores, under [_defaults], the entries of the class body
    [dct] whose name does not start with an underscore and whose value is
    not a classmethod.  At that point [type] is still the builtin; the loop
    at the end of the module binds the global name [type] to a Literal
    type, which this definition does not cover. *)
Definition __init__ (cls : gmap string Value) (dct : list (string * Value))
  : gmap string Value :=
  <["_defaults" :=
      VDict (List.filter
               (fun kv => negb (startswith_underscore kv.1) && not_classmethod kv.2)
               dct)]> cls.

End _ConfigMeta.

Module Config.

(** The namespace [dct] that the class statement hands to the metaclass:
    the entries Python adds itself, then the class body in source order. *)
Definition dct : list (string * Value) :=
  [ ("__module__", VStr "pyoframe.constants");
    ("__qualname__", VStr "Config");
    ("__doc__", VStr "Configuration options that apply to the entire library.");
    ("__annotations__", VOpaque 0);
    ("default_solver", VNone);
    ("disable_unmatched_checks", VBool false);
    ("float_to_str_precision", VInt 5);
    ("print_uses_variable_names", VBool true);
    ("print_max_line_length", VInt 80);
    ("print_max_lines", VInt 15);
    ("print_max_set_elements", VInt 50);
    ("enable_is_duplicated_expression_safety_check", VBool false);
    ("integer_tolerance", VFloat 1 (-8));
    ("reset_defaults", VClassMethod "reset_defaults") ].

(** The class object once the class statement has run: its attributes. *)
Definition at_import : gmap string Value :=
  _ConfigMeta.__init__ (list_to_map dct) dct.

(** [setattr(cls, key, value)] *)
Definition setattr (key : string) (value : Value) (cls : gmap string Value)
  : gmap string Value :=
  <[key := value]> cls.

(** [Config.reset_defaults()] *)
Definition reset_defaults (cls : gmap string Value) : Result (gmap string Value) :=
  match cls !! "_defaults" with
  | Some (VDict items) =>
      Ok (fold_left (fun c kv => setattr kv.1 kv.2 c) items cls)
  | Some _ => Err (Exc AttributeError "object has no attribute 'items'")
  | None => Err (Exc AttributeError "type object 'Config' has no attribute '_defaults'")
  end.

(** A mutation of the configuration from user code: [Config.key = value]
    or [del Config.key]. *)
Inductive Mutation :=
| Assign (key : string) (value : Value)
| Delete (key : string).

Definition mutated_key (mu : Mutation) : string :=
  match mu with Assign k _ => k | Delete k => k end.

Definition mutate (cls : gmap string Value) (mu : Mutation) : gmap string Value :=
  match mu with
  | Assign k v => setattr k v cls
  | Delete k => delete k cls
  end.

End Config.

(** ** The collaborators of model.py *)

(** What [model.py] calls but does not define.

    - pyoptinterface: the adapter constructors may raise; [next_index] is
      the index the solver gives to the next variable added to a model.
    - Modelled from the spec: [on_add_to_model] (pyoframe.model_element),
      the constructor of Objective (pyoframe.objective) and
      NamedVariableMapper (pyoframe.util) are absent from the sources.
      Binding an element acts on the element and on the solver behind the
      model, which together make up [World]; it reads the model but does
      not assign the model's attributes.  Each may raise.
    - [object_hasattr]: the names that Python resolves on every instance
      without the class body or the instance dictionary ([__class__],
      [__eq__], ...). *)
Class Collaborators := {
  World : Type;
  GurobiEnv : Type;
  gurobi_Env : Result GurobiEnv;
  gurobi_set_raw_parameter : GurobiEnv -> string -> string -> Result GurobiEnv;
  gurobi_start : GurobiEnv -> Result GurobiEnv;
  gurobi_Model : option GurobiEnv -> Result poi.Model;
  highs_Model : Result poi.Model;
  ipopt_Model : Result poi.Model;
  next_index : poi.Model -> Z;
  poi_write : poi.Model -> pathlib.Path -> option bool -> World ->
              gmap (list string) pathlib.Node -> Result (gmap (list string) pathlib.Node);
  poi_set_raw_parameter : poi.Model -> string -> Value -> World -> option Exception * World;
  on_add_to_model : Value -> gmap string Value -> string -> World -> option Exception * World;
  Objective_new : Value -> World -> Result (bool * nat) * World;
  NamedVariableMapper_new : World -> nat * World;
  NamedVariableMapper_add : Value -> Value -> World -> World;
  object_hasattr : string -> bool
}.

(** ** State and effects *)

Section Effects.
Context `{Collaborators}.

(** The state a method of Model runs in: the attributes of [self], the
    world of the collaborators, and the file system. *)
Record State := mkState {
  __dict__ : gmap string Value;
  world : World;
  fs : gmap (list string) pathlib.Node
}.

Inductive Outcome (A : Type) :=
| Returns (a : A) (st : State)
| Raises (e : Exception) (st : State).

Arguments Returns {A} a st.
Arguments Raises {A} e st.

Definition M (A : Type) : Type := State -> Outcome A.

Definition final_state {A} (o : Outcome A) : State :=
  match o with Returns _ st => st | Raises _ st => st end.

End Effects.

Arguments Returns {_ A} a st.
Arguments Raises {_ A} e st.

#[global] Instance M_ret `{Collaborators} : MRet M :=
  fun A a st => Returns a st.

#[global] Instance M_bind `{Collaborators} : MBind M :=
  fun A B k m st =>
    match m st with
    | Returns a st' => k a st'
    | Raises e st' => Raises e st'
    end.

#[global] Instance Result_ret : MRet Result := fun A a => Ok a.
#[global] Instance Result_bind : MBind Result := fun A B k r => rbind r k.

Section Primitives.
Context `{Collaborators}.

Definition raise {A} (e : Exception) : M A := fun st => Raises e st.

(** Run a pure fallible computation. *)
Definition lift {A} (r : Result A) : M A :=
  fun st => match r with Ok a => Returns a st | Err e => Raises e st end.

Definition when (b : bool) (body : M unit) : M unit :=
  if b then body else mret tt.

(** [self.name], for a name held in the instance dictionary. *)
Definition getattr (name : string) : M Value :=
  fun st =>
    match __dict__ st !! name with
    | Some v => Returns v st
    | None => Raises (Exc AttributeError ("'Model' object has no attribute '" ++ name ++ "'")) st
    end.

(** Writing the instance dictionary: what [object.__setattr__] does for a
    name that is not a property of the class. *)
Definition store (name : string) (value : Value) : M unit :=
  fun st => Returns tt (mkState (<[name := value]> (__dict__ st)) (world st) (fs st)).

(** [getattr(self, name).append(value)].  Lists are held by value: the
    attribute gets the longer list; a second attribute holding the same
    list object is not modelled. *)
Definition append (name : string) (value : Value) : M unit :=
  l ← getattr name;
  match l with
  | VList items => store name (VList (items ++ [value]))
  | _ => raise (Exc AttributeError "object has no attribute 'append'")
  end.

(** A collaborator acting on the world; the world it leaves is kept also
    when it raises. *)
Definition in_world (f : gmap string Value -> World -> option Exception * World) : M unit :=
  fun st =>
    let '(r, w) := f (__dict__ st) (world st) in
    let st' := mkState (__dict__ st) w (fs st) in
    match r with
    | None => Returns tt st'
    | Some e => Raises e st'
    end.

End Primitives.

(** ** model.py: the class Model *)

Module Model.
Section Model.
Context `{Collaborators}.

Definition _reserved_attributes : list string :=
  [ "_variables"; "_constraints"; "_objective"; "var_map"; "io_mappers";
    "name"; "solver"; "poi"; "params"; "result"; "attr"; "sense";
    "objective"; "_use_var_names"; "ONE"; "solver_name"; "minimize";
    "maximize" ].

(** [__name in Model._reserved_attributes] *)
Definition is_reserved (name : string) : bool :=
  bool_decide (name ∈ _reserved_attributes).

(** *** Creating the adapter model *)

(** [model.add_variable(lb=lb, ub=ub, name=name)]: the adapter records the
    variable under the index the solver chooses and returns its handle. *)
Definition add_variable (model : poi.Model) (lb ub : Z) (name : string)
  : poi.Model * poi.VariableIndex :=
  let v := poi.mkVariableIndex (next_index model) lb ub name in
  (poi.mkModel (poi.solver model) (poi.variables model ++ [v]), v).

(** [for key, value in solver_env.items(): env.set_raw_parameter(key, value)] *)
Fixpoint set_raw_parameters (env : GurobiEnv) (items : list (string * string))
  : Result GurobiEnv :=
  match items with
  | [] => Ok env
  | (key, value) :: rest =>
      env' ← gurobi_set_raw_parameter env key value;
      set_raw_parameters env' rest
  end.

Definition double_quote : string := String (ascii_of_nat 34) EmptyString.

(** The adapter constructor chosen by the (lower-cased) solver name: the
    [if]/[elif] chain of [create_poi_model]. *)
Definition adapter_model (solver : string)
    (solver_env : option (list (string * string))) : Result poi.Model :=
  if String.eqb solver "gurobi" then
    match solver_env with
    | None => gurobi_Model None
    | Some items =>
        env ← gurobi_Env;
        env ← set_raw_parameters env items;
        env ← gurobi_start env;
        gurobi_Model (Some env)
    end
  else if String.eqb solver "highs" then highs_Model
  else if String.eqb solver "ipopt" then ipopt_Model
  else Err (Exc ValueError ("Solver " ++ solver ++ " not recognized or supported.")).

(** [create_poi_model] from line 122 on, where [solver] is a string. *)
Definition create_poi_model_named (solver : string)
    (solver_env : option (list (string * string)))
  : Result (poi.Model * string) :=
  let solver := lower solver in
  model ← adapter_model solver solver_env;
  let '(model, constant_var) := add_variable model 1 1 "ONE" in
  if negb (poi.index constant_var =? CONST_TERM)
  then Err (Exc ValueError "The first variable should have index 0.")
  else Ok (model, solver).

(** The error raised after the loop over SUPPORTED_SOLVERS. *)
Definition no_solver_found : Exception :=
  Exc ValueError
    ("Could not automatically find a solver. Is one installed? If so, specify which one: e.g. Model(solver="
     ++ double_quote ++ "gurobi" ++ double_quote ++ ")").

(** The loop over SUPPORTED_SOLVERS: return what the first constructor that
    does not raise a RuntimeError gives, and raise a ValueError once the
    list is used up. *)
Fixpoint detect_solver (options : list string)
    (solver_env : option (list (string * string)))
  : Result (poi.Model * string) :=
  match options with
  | [] => Err no_solver_found
  | solver_option :: rest =>
      match create_poi_model_named solver_option solver_env with
      | Ok r => Ok r
      | Err e =>
          if issubclass_RuntimeError (exc_class e)
          then detect_solver rest solver_env
          else Err e
      end
  end.

(** [Model.create_poi_model(solver, solver_env)], reading the class Config. *)
Definition create_poi_model (Config : gmap string Value) (solver : option string)
    (solver_env : option (list (string * string)))
  : Result (poi.Model * string) :=
  match solver with
  | None =>
      match Config !! "default_solver" with
      | Some VNone => detect_solver SUPPORTED_SOLVERS solver_env
      | Some (VStr default_solver) => create_poi_model_named default_solver solver_env
      | Some _ => Err (Exc AttributeError "object has no attribute 'lower'")
      | None => Err (Exc AttributeError "type object 'Config' has no attribute 'default_solver'")
      end
  | Some solver => create_poi_model_named solver solver_env
  end.

(** *** Properties *)

Definition use_var_names : M Value := getattr "_use_var_names".

Definition variables : M Value := getattr "_variables".

Definition constraints : M Value := getattr "_constraints".

(** [binary_variables] and [integer_variables] build a generator over
    [self.variables], which is evaluated when the generator is made. *)
Definition binary_variables : M Value := _ ← variables; mret (VOpaque 1).

Definition integer_variables : M Value := _ ← variables; mret (VOpaque 2).

Definition objective : M Value := getattr "_objective".

(** [value.on_add_to_model(self, name)] *)
Definition bind_element (value : Value) (name : string) : M unit :=
  in_world (fun self => on_add_to_model value self name).

(** [Objective(value)] *)
Definition Objective (value : Value) : M Value :=
  fun st =>
    let '(r, w) := Objective_new value (world st) in
    let st' := mkState (__dict__ st) w (fs st) in
    match r with
    | Ok (c, id) => Returns (VObjective c id) st'
    | Err e => Raises e st'
    end.

(** The setter of [objective].  Its assignment to [self._objective] is a
    plain store, as [_objective] is a reserved name and not a property. *)
Definition objective_setter (value : Value) : M unit :=
  current ← getattr "_objective";
  if negb (is_None current) &&
     (negb (isinstance_Objective value) || negb (_constructive_of value))
  then raise (Exc ValueError "An objective already exists. Use += or -= to modify it.")
  else
    value ← (if negb (isinstance_Objective value) then Objective value else mret value);
    store "_objective" value ;;
    bind_element value "objective".

Definition minimize : M Value :=
  sense ← getattr "sense";
  if negb (eq_ObjSense sense ObjSense.MIN)
  then raise (Exc ValueError "Can't get .minimize in a maximization problem.")
  else getattr "_objective".

(** The setter of [minimize]; [self.objective = value] reaches the setter
    of [objective], as [objective] is a reserved name. *)
Definition minimize_setter (value : Value) : M unit :=
  sense ← getattr "sense";
  when (is_None sense) (store "sense" (VObjSense ObjSense.MIN)) ;;
  sense ← getattr "sense";
  if negb (eq_ObjSense sense ObjSense.MIN)
  then raise (Exc ValueError "Can't set .minimize in a maximization problem.")
  else objective_setter value.

Definition maximize : M Value :=
  sense ← getattr "sense";
  if negb (eq_ObjSense sense ObjSense.MAX)
  then raise (Exc ValueError "Can't get .maximize in a minimization problem.")
  else getattr "_objective".

Definition maximize_setter (value : Value) : M unit :=
  sense ← getattr "sense";
  when (is_None sense) (store "sense" (VObjSense ObjSense.MAX)) ;;
  sense ← getattr "sense";
  if negb (eq_ObjSense sense ObjSense.MAX)
  then raise (Exc ValueError "Can't set .maximize in a minimization problem.")
  else objective_setter value.

(** *** Attribute access *)

(** The getter of the property called [name], if the class has one. *)
Definition property_getter (name : string) : option (M Value) :=
  if String.eqb name "use_var_names" then Some use_var_names
  else if String.eqb name "variables" then Some variables
  else if String.eqb name "binary_variables" then Some binary_variables
  else if String.eqb name "integer_variables" then Some integer_variables
  else if String.eqb name "constraints" then Some constraints
  else if String.eqb name "objective" then Some objective
  else if String.eqb name "minimize" then Some minimize
  else if String.eqb name "maximize" then Some maximize
  else None.

(** The setter of the property called [name], if it has one. *)
Definition property_setter (name : string) : option (Value -> M unit) :=
  if String.eqb name "objective" then Some objective_setter
  else if String.eqb name "minimize" then Some minimize_setter
  else if String.eqb name "maximize" then Some maximize_setter
  else None.

(** The other names that the class body defines. *)
Definition class_attributes : list string :=
  [ "_reserved_attributes"; "__init__"; "create_poi_model"; "__setattr__";
    "__repr__"; "write"; "optimize"; "convert_to_fixed"; "compute_IIS";
    "dispose"; "_set_param"; "_get_param"; "_set_attr"; "_get_attr" ].

(** [hasattr(self, name)]: the attribute is looked up, and only an
    AttributeError counts as absence. *)
Definition hasattr (name : string) : M bool :=
  fun st =>
    match property_getter name with
    | Some getter =>
        match getter st with
        | Returns _ st' => Returns true st'
        | Raises e st' =>
            match exc_class e with
            | AttributeError => Returns false st'
            | _ => Raises e st'
            end
        end
    | None =>
        Returns (match __dict__ st !! name with Some _ => true | None => false end
                 || bool_decide (name ∈ class_attributes)
                 || object_hasattr name) st
    end.

(** [super().__setattr__(name, value)], that is [object.__setattr__]: a
    property of the class takes the assignment (and refuses it when it has
    no setter); any other name is written to the instance dictionary. *)
Definition super__setattr__ (name : string) (value : Value) : M unit :=
  match property_setter name, property_getter name with
  | Some setter, _ => setter value
  | None, Some _ =>
      raise (Exc AttributeError ("property '" ++ name ++ "' of 'Model' object has no setter"))
  | None, None => store name value
  end.

Definition __setattr__ (__name : string) (__value : Value) : M unit :=
  if negb (is_reserved __name) &&
     negb (isinstance_ModelElement __value || isinstance_DataFrame __value)
  then
    raise (Exc PyoframeError
             ("Cannot set attribute '" ++ __name ++
              "' on the model because it isn't of type ModelElement (e.g. Variable, Constraint, ...)"))
  else
    when (isinstance_ModelElement __value && negb (is_reserved __name))
      (when (isinstance_ModelElementWithId __value)
         (exists_already ← hasattr __name;
          when exists_already
            (raise (Exc AssertionError
                      ("Cannot create " ++ __name ++ " since it was already created.")))) ;;
       bind_element __value __name ;;
       if isinstance_Variable __value then
         append "_variables" __value ;;
         var_map ← getattr "var_map";
         when (negb (is_None var_map))
           (in_world (fun _ w => (None, NamedVariableMapper_add var_map __value w)))
       else
         when (isinstance_Constraint __value) (append "_constraints" __value)) ;;
    super__setattr__ __name __value.

(** *** Construction *)

(** [ObjSense(sense)]: a member is returned as it is, a string is looked up
    among the members' values. *)
Definition ObjSense_call (sense : Value) : Result Value :=
  match sense with
  | VObjSense s => Ok (VObjSense s)
  | VStr s => member ← ObjSense.of_value s; Ok (VObjSense member)
  | _ => Err (Exc ValueError "not a valid ObjSense")
  end.

(** [NamedVariableMapper(Variable)] *)
Definition NamedVariableMapper : M Value :=
  fun st =>
    let '(id, w) := NamedVariableMapper_new (world st) in
    Returns (VNamedVariableMapper id) (mkState (__dict__ st) w (fs st)).

Definition __init__ (Config : gmap string Value) (name : Value)
    (solver : option string) (solver_env : option (list (string * string)))
    (use_var_names : Value) (sense : Value) : M unit :=
  created ← lift (create_poi_model Config solver solver_env);
  __setattr__ "poi" (VPoi created.1) ;;
  __setattr__ "solver_name" (VStr created.2) ;;
  __setattr__ "_variables" (VList []) ;;
  __setattr__ "_constraints" (VList []) ;;
  sense ← (if negb (is_None sense) then lift (ObjSense_call sense) else mret VNone);
  __setattr__ "sense" sense ;;
  __setattr__ "_objective" VNone ;;
  print_uses_variable_names ←
    lift (match Config !! "print_uses_variable_names" with
          | Some v => Ok v
          | None => Err (Exc AttributeError
                           "type object 'Config' has no attribute 'print_uses_variable_names'")
          end);
  var_map ← (if truthy print_uses_variable_names then NamedVariableMapper else mret VNone);
  __setattr__ "var_map" var_map ;;
  __setattr__ "name" name ;;
  __setattr__ "params" (VContainer "_set_param" "_get_param") ;;
  __setattr__ "attr" (VContainer "_set_attr" "_get_attr") ;;
  __setattr__ "_use_var_names" use_var_names.

(** [Model(name, solver, solver_env, use_var_names, sense)]: [__init__] run
    on a new instance, whose dictionary is empty. *)
Definition new (Config : gmap string Value) (name : Value)
    (solver : option string) (solver_env : option (list (string * string)))
    (use_var_names : Value) (sense : Value)
    (w : World) (files : gmap (list string) pathlib.Node) : Outcome unit :=
  __init__ Config name solver solver_env use_var_names sense (mkState ∅ w files).

(** *** Writing the model to a file *)

(** A step on the file system; nothing changes when it raises. *)
Definition in_fs (f : gmap (list string) pathlib.Node -> Result (gmap (list string) pathlib.Node))
  : M unit :=
  fun st =>
    match f (fs st) with
    | Ok files => Returns tt (mkState (__dict__ st) (world st) files)
    | Err e => Raises e st
    end.

(** [v == s] for a string literal [s] *)
Definition eq_str (v : Value) (s : string) : bool :=
  match v with VStr s' => String.eqb s' s | _ => false end.

Definition _set_param (name : string) (value : Value) : M unit :=
  handle ← getattr "poi";
  match handle with
  | VPoi model => in_world (fun _ => poi_set_raw_parameter model name value)
  | _ => raise (Exc AttributeError "object has no attribute 'set_raw_parameter'")
  end.

(** [self.params.name = value]: the Container made in [__init__] hands an
    attribute write to the setter it was given, [_set_param]. *)
Definition params_set (name : string) (value : Value) : M unit :=
  _ ← getattr "params";
  _set_param name value.

Definition write (file_path : pathlib.Path) (pretty : bool) : M unit :=
  in_fs (pathlib.mkdir_parents true (pathlib.parent file_path)) ;;
  solver_name ← getattr "solver_name";
  if eq_str solver_name "ipopt" then
    let extension := lower (pathlib.suffix file_path) in
    raise (Exc NotImplementedError
             ("IPOPT does not support writing models to " ++ extension ++ " files. "
              ++ "Use another solver like Gurobi or HiGHS if you need file export capabilities."))
  else
    solver_name ← getattr "solver_name";
    kwargs ←
      (if eq_str solver_name "highs" then
         flag ← use_var_names;
         when (truthy flag) (params_set "write_solution_style" (VInt 1)) ;;
         mret (Some pretty)
       else mret None);
    handle ← getattr "poi";
    match handle with
    | VPoi model => fun st => in_fs (poi_write model file_path kwargs (world st)) st
    | _ => raise (Exc AttributeError "object has no attribute 'write'")
    end.

End Model.
End Model.

(** ** The configuration as documented *)

(** The public options of Config with the defaults that the class body
    documents, written out. *)
Definition documented_defaults : list (string * Value) :=
  [ ("default_solver", VNone);
    ("disable_unmatched_checks", VBool false);
    ("float_to_str_precision", VInt 5);
    ("print_uses_variable_names", VBool true);
    ("print_max_line_length", VInt 80);
    ("print_max_lines", VInt 15);
    ("print_max_set_elements", VInt 50);
    ("enable_is_duplicated_expression_safety_check", VBool false);
    ("integer_tolerance", VFloat 1 (-8)) ].

(** ** Reachable states of a Model

    The states that user code reaches through the public interface: a Model
    is constructed, and then attributes are assigned on it.  Every name may
    be assigned except the private [_objective], which only the class
    itself writes. *)

Inductive reachable `{Collaborators} : State -> Prop :=
| reachable_new Config name solver solver_env use_var_names sense w files st :
    Model.new Config name solver solver_env use_var_names sense w files = Returns tt st ->
    reachable st
| reachable_setattr st name value :
    reachable st ->
    name <> "_objective" ->
    reachable (final_state (Model.__setattr__ name value st))
| reachable_write st file_path pretty :
    reachable st ->
    reachable (final_state (Model.write file_path pretty st)).

(** [Model.objective] holds None or an Objective. *)
Definition objective_well_typed `{Collaborators} (st : State) : Prop :=
  __dict__ st !! "_objective" = Some VNone \/
  exists c id, __dict__ st !! "_objective" = Some (VObjective c id).

(** The attributes that [__init__] creates and that the read-only
    properties [variables], [constraints] and [use_var_names] read. *)
Definition constructed `{Collaborators} (st : State) : Prop :=
  is_Some (__dict__ st !! "_variables") /\
  is_Some (__dict__ st !! "_constraints") /\
  is_Some (__dict__ st !! "_use_var_names").

(** What every operation on a Model maintains. *)
Definition model_invariant `{Collaborators} (st : State) : Prop :=
  objective_well_typed st /\ constructed st.

(** [m] maintains the invariant, whether it returns or raises, and what it
    returns satisfies [Q]. *)
Definition maintains `{Collaborators} {A} (m : M A) (Q : A -> Prop) : Prop :=
  forall st, model_invariant st ->
    match m st with
    | Returns a st' => model_invariant st' /\ Q a
    | Raises _ st' => model_invariant st'
    end.

Definition None_or_Objective (v : Value) : Prop :=
  v = VNone \/ isinstance_Objective v = true.

(** An adapter model to which the variable ONE, with both bounds 1, was
    added last and got the index [CONST_TERM]. *)
Definition has_constant_term `{Collaborators} (model : poi.Model) : Prop :=
  exists fresh,
    next_index fresh = CONST_TERM /\
    model = poi.mkModel (poi.solver fresh)
              (poi.variables fresh ++ [poi.mkVariableIndex CONST_TERM 1 1 "ONE"]).

(** A computation that raised a RuntimeError (or an exception of a
    subclass), which is what the solver detection takes for a solver that
    is not available. *)
Definition fails_with_RuntimeError {A} (r : Result A) : Prop :=
  exists e, r = Err e /\ issubclass_RuntimeError (exc_class e) = true.

(** [files'] is [files] with some directories added: every entry is kept
    as it is, and every new entry is a directory. *)
Definition extends_with_directories (files files' : gmap (list string) pathlib.Node) : Prop :=
  (forall q node, files !! q = Some node -> files' !! q = Some node) /\
  (forall q node, files' !! q = Some node -> files !! q = Some node \/ node = pathlib.Dir).

(** What assigning [value] as the objective comes to on a Model without
    objective, written on the collaborators alone: a value that is not an
    Objective is wrapped into one, the Objective is recorded under
    [_objective], and then it is bound under the name [objective].  The
    error of a collaborator ends the assignment where it occurs, so an
    error of the binding finds the Objective recorded. *)
Definition record_and_bind `{Collaborators} (value : Value) (st : State) : Outcome unit :=
  let wrapped : Result Value * World :=
    if isinstance_Objective value then (Ok value, world st)
    else
      match Objective_new value (world st) with
      | (Ok (c, id), w) => (Ok (VObjective c id), w)
      | (Err e, w) => (Err e, w)
      end in
  match wrapped with
  | (Err e, w) => Raises e (mkState (__dict__ st) w (fs st))
  | (Ok objective, w) =>
      let attributes := <["_objective" := objective]> (__dict__ st) in
      match on_add_to_model objective attributes "objective" w with
      | (None, w') => Returns tt (mkState attributes w' (fs st))
      | (Some e, w') => Raises e (mkState attributes w' (fs st))
      end
  end.

(** ** Concrete collaborators

    Small environments on which the methods can be run.  The world is the
    log of the names under which elements were bound. *)

Module Demo.

Definition not_installed (solver : string) : Exception :=
  Exc RuntimeError (solver ++ " is not installed").

(** A machine with HiGHS and Ipopt but without Gurobi.  The solver numbers
    its variables from 0; an Objective can be made from an expression. *)
Definition highs_and_ipopt : Collaborators := {|
  World := list string;
  GurobiEnv := unit;
  gurobi_Env := Err (not_installed "gurobi");
  gurobi_set_raw_parameter := fun env _ _ => Ok env;
  gurobi_start := fun env => Ok env;
  gurobi_Model := fun _ => Err (not_installed "gurobi");
  highs_Model := Ok (poi.mkModel "highs" []);
  ipopt_Model := Ok (poi.mkModel "ipopt" []);
  next_index := fun model => Z.of_nat (length (poi.variables model));
  poi_write := fun _ file_path _ _ files => Ok (<[file_path := pathlib.File "model"]> files);
  poi_set_raw_parameter := fun _ _ _ w => (None, w);
  on_add_to_model := fun _ _ name w => (None, (w ++ [name])%list);
  Objective_new := fun value w =>
    match value with
    | VInstance cls_ModelElement id => (Ok (false, id), w)
    | _ => (Err (Exc TypeError "cannot convert to an expression"), w)
    end;
  NamedVariableMapper_new := fun w => (O, w);
  NamedVariableMapper_add := fun _ _ w => w;
  object_hasattr := fun name => bool_decide (name ∈ ["__class__"; "__dict__"; "__doc__"])
|}.

(** A machine without any solver: every adapter constructor raises a
    RuntimeError. *)
Definition no_solver : Collaborators := {|
  World := list string;
  GurobiEnv := unit;
  gurobi_Env := Err (not_installed "gurobi");
  gurobi_set_raw_parameter := fun env _ _ => Ok env;
  gurobi_start := fun env => Ok env;
  gurobi_Model := fun _ => Err (not_installed "gurobi");
  highs_Model := Err (not_installed "highs");
  ipopt_Model := Err (not_installed "ipopt");
  next_index := fun model => Z.of_nat (length (poi.variables model));
  poi_write := fun _ _ _ _ files => Ok files;
  poi_set_raw_parameter := fun _ _ _ w => (None, w);
  on_add_to_model := fun _ _ name w => (None, (w ++ [name])%list);
  Objective_new := fun _ w => (Err (Exc TypeError "cannot convert to an expression"), w);
  NamedVariableMapper_new := fun w => (O, w);
  NamedVariableMapper_add := fun _ _ w => w;
  object_hasattr := fun _ => false
|}.

(** A solver that numbers its variables from 1. *)
Definition one_based : Collaborators := {|
  World := list string;
  GurobiEnv := unit;
  gurobi_Env := Ok tt;
  gurobi_set_raw_parameter := fun env _ _ => Ok env;
  gurobi_start := fun env => Ok env;
  gurobi_Model := fun _ => Ok (poi.mkModel "gurobi" []);
  highs_Model := Ok (poi.mkModel "highs" []);
  ipopt_Model := Ok (poi.mkModel "ipopt" []);
  next_index := fun model => Z.of_nat (length (poi.variables model)) + 1;
  poi_write := fun _ _ _ _ files => Ok files;
  poi_set_raw_parameter := fun _ _ _ w => (None, w);
  on_add_to_model := fun _ _ name w => (None, (w ++ [name])%list);
  Objective_new := fun _ w => (Err (Exc TypeError "cannot convert to an expression"), w);
  NamedVariableMapper_new := fun w => (O, w);
  NamedVariableMapper_add := fun _ _ w => w;
  object_hasattr := fun _ => false
|}.

(** A file system in which [/out] is a regular file. *)
Definition out_is_a_file : gmap (list string) pathlib.Node :=
  {[ ["out"] := pathlib.File "notes" ]}.

(** The state of [Model(solver=solver)] constructed on the first machine
    over the file system [files]. *)
Definition model_state (solver : option string)
    (files : gmap (list string) pathlib.Node) : State (H := highs_and_ipopt) :=
  final_state
    (Model.new (H := highs_and_ipopt) Config.at_import VNone solver None
       (VBool false) VNone [] files).

(** An expression, two variables and a constraint made by user code. *)
Definition expression : Value := VInstance cls_ModelElement 7.
Definition X1 : Value := VInstance cls_Variable 1.
Definition X2 : Value := VInstance cls_Variable 2.

(** [m = Model()] *)
Definition m : State (H := highs_and_ipopt) := model_state None ∅.

(** [m.minimize = expression] *)
Definition minimizing : State (H := highs_and_ipopt) :=
  final_state (Model.__setattr__ (H := highs_and_ipopt) "minimize" expression m).

(** [m.maximize = expression] *)
Definition maximizing : State (H := highs_and_ipopt) :=
  final_state (Model.__setattr__ (H := highs_and_ipopt) "maximize" expression m).

(** [m.X = X1] *)
Definition with_X : State (H := highs_and_ipopt) :=
  final_state (Model.__setattr__ (H := highs_and_ipopt) "X" X1 m).

End Demo.

(** ** constants.py: the values of the enums and their Literal types *)

Module EnumValues.

(** [member.value] *)
Definition ObjSense_value (member : ObjSense.t) : string :=
  match member with
  | ObjSense.MIN => "min"
  | ObjSense.MAX => "max"
  end.

Definition VType_value (member : VType.t) : string :=
  match member with
  | VType.CONTINUOUS => "continuous"
  | VType.BINARY => "binary"
  | VType.INTEGER => "integer"
  end.

(** The members in definition order, as iterating over the enum gives
    them. *)
Definition ObjSense_members : list ObjSense.t := [ObjSense.MIN; ObjSense.MAX].

Definition VType_members : list VType.t :=
  [VType.CONTINUOUS; VType.BINARY; VType.INTEGER].

(** [typing.get_args] of the Literal types. *)
Definition ObjSenseValue : list string := ["min"; "max"].

Definition VTypeValue : list string := ["continuous"; "binary"; "integer"].

(** [set(typing.get_args(type)) == {vtype.value for vtype in enum}] *)
Definition literal_matches (args values : list string) : bool :=
  bool_decide ((list_to_set args : gset string) = list_to_set values).

(** The loop of assertions that runs when the module is imported. *)
Fixpoint check_literals (pairs : list (list string * list string)) : Result unit :=
  match pairs with
  | [] => Ok tt
  | (values, args) :: rest =>
      if literal_matches args values then check_literals rest
      else Err (Exc AssertionError EmptyString)
  end.

Definition module_assertions : Result unit :=
  check_literals
    [ (ObjSense_value <$> ObjSense_members, ObjSenseValue);
      (VType_value <$> VType_members, VTypeValue) ].

End EnumValues.

(** ** Names and reads *)

(** [name] is free on the Model: no attribute, method or property answers
    to it, so [hasattr] finds nothing. *)
Definition free_name `{Collaborators} (st : State) (name : string) : Prop :=
  Model.property_getter name = None /\
  __dict__ st !! name = None /\
  (name ∉ Model.class_attributes) /\
  object_hasattr name = false.

(** A computation that only reads: it returns or raises in the state it
    started in. *)
Definition reads `{Collaborators} {A} (m : M A) : Prop :=
  forall st, (exists a, m st = Returns a st) \/ (exists e, m st = Raises e st).

(** The names of the properties of Model that have no setter. *)
Definition read_only_properties : list string :=
  ["use_var_names"; "variables"; "binary_variables"; "integer_variables"; "constraints"].

(** Modelled from the spec: an Objective is an expression plus a sense, so
    the binding of an Objective (pyoframe.objective, absent from the
    sources) hands the objective to the solver with the sense of the Model,
    and refuses a Model whose sense is unset.  Every other element is bound
    as on the first machine of [Demo]. *)
Module DemoSense.

Definition sense_unset : Exception :=
  Exc ValueError "Can't set an objective without specifying the sense.".

Definition bind (value : Value) (self : gmap string Value) (name : string)
    (w : list string) : option Exception * list string :=
  if isinstance_Objective value then
    match self !! "sense" with
    | Some (VObjSense _) => (None, (w ++ [name])%list)
    | _ => (Some sense_unset, w)
    end
  else (None, (w ++ [name])%list).

Definition collaborators : Collaborators := {|
  World := list string;
  GurobiEnv := unit;
  gurobi_Env := Err (Demo.not_installed "gurobi");
  gurobi_set_raw_parameter := fun env _ _ => Ok env;
  gurobi_start := fun env => Ok env;
  gurobi_Model := fun _ => Err (Demo.not_installed "gurobi");
  highs_Model := Ok (poi.mkModel "highs" []);
  ipopt_Model := Ok (poi.mkModel "ipopt" []);
  next_index := fun model => Z.of_nat (length (poi.variables model));
  poi_write := fun _ file_path _ _ files => Ok (<[file_path := pathlib.File "model"]> files);
  poi_set_raw_parameter := fun _ _ _ w => (None, w);
  on_add_to_model := bind;
  Objective_new := fun value w =>
    match value with
    | VInstance cls_ModelElement id => (Ok (false, id), w)
    | _ => (Err (Exc TypeError "cannot convert to an expression"), w)
    end;
  NamedVariableMapper_new := fun w => (O, w);
  NamedVariableMapper_add := fun _ _ w => w;
  object_hasattr := fun name => bool_decide (name ∈ ["__class__"; "__dict__"; "__doc__"])
|}.

(** [m = Model()] on this machine: no objective and no sense yet. *)
Definition m : State (H := collaborators) :=
  final_state
    (Model.new (H := collaborators) Config.at_import VNone None None
       (VBool false) VNone [] ∅).

(** [m.objective = expression], which the binding refuses. *)
Definition refused : State (H := collaborators) :=
  final_state (Model.__setattr__ (H := collaborators) "objective" Demo.expression m).

End DemoSense.

(** ** Relations between the state before and after an operation *)

(** Whatever its outcome, [m] takes a state to one that [R] relates to
    it. *)
Definition steps `{Collaborators} (R : State -> State -> Prop) {A} (m : M A) : Prop :=
  forall st, R st (final_state (m st)).

(** The variables and the constraints of the Model only grow, at the end,
    and by elements of the right class. *)
Definition collections_grow `{Collaborators} (st st' : State) : Prop :=
  (forall bound,
     __dict__ st !! "_variables" = Some (VList bound) ->
     exists more,
       __dict__ st' !! "_variables" = Some (VList (bound ++ more)) /\
       Forall (fun v => isinstance_Variable v = true) more) /\
  (forall bound,
     __dict__ st !! "_constraints" = Some (VList bound) ->
     exists more,
       __dict__ st' !! "_constraints" = Some (VList (bound ++ more)) /\
       Forall (fun c => isinstance_Constraint c = true) more).

(** A sense that has been set stays as it is. *)
Definition sense_kept `{Collaborators} (st st' : State) : Prop :=
  forall member,
    __dict__ st !! "sense" = Some (VObjSense member) ->
    __dict__ st' !! "sense" = Some (VObjSense member).

(** The attributes of the Model are the same. *)
Definition same_attributes `{Collaborators} (st st' : State) : Prop :=
  __dict__ st' = __dict__ st.

(** The states reached by constructing a Model, assigning attributes other
    than the private lists [_variables] and [_constraints], and writing the
    Model to files. *)
Inductive assembled `{Collaborators} : State -> Prop :=
| assembled_new Config name solver solver_env use_var_names sense w files st :
    Model.new Config name solver solver_env use_var_names sense w files = Returns tt st ->
    assembled st
| assembled_setattr st name value :
    assembled st ->
    name <> "_variables" ->
    name <> "_constraints" ->
    assembled (final_state (Model.__setattr__ name value st))
| assembled_write st file_path pretty :
    assembled st ->
    assembled (final_state (Model.write file_path pretty st)).

(** The variables of the Model are Variables and its constraints are
    Constraints. *)
Definition collections_well_typed `{Collaborators} (st : State) : Prop :=
  exists variables constraints,
    __dict__ st !! "_variables" = Some (VList variables) /\
    Forall (fun v => isinstance_Variable v = true) variables /\
    __dict__ st !! "_constraints" = Some (VList constraints) /\
    Forall (fun c => isinstance_Constraint c = true) constraints.

(** ** model.py: parameters and attributes of the solver

    What the adapter offers for them.  [ModelAttribute_getitem] is
    [poi.ModelAttribute[name]], which has no member for a name the adapter
    does not standardise; the other fields are the adapter's methods, which
    act on the world and may raise. *)
Class AdapterAttributes `{Collaborators} := {
  ModelAttribute : Type;
  ModelAttribute_getitem : string -> option ModelAttribute;
  set_model_attribute : poi.Model -> ModelAttribute -> Value -> World -> option Exception * World;
  get_model_attribute : poi.Model -> ModelAttribute -> World -> Result Value * World;
  set_model_raw_attribute : poi.Model -> string -> Value -> World -> option Exception * World;
  get_model_raw_attribute : poi.Model -> string -> World -> Result Value * World;
  get_raw_parameter : poi.Model -> string -> World -> Result Value * World
}.

Module ModelAttributes.
Section ModelAttributes.
Context `{AdapterAttributes}.

(** Python's KeyError. *)
Definition KeyError : ExcClass := OtherError "KeyError".

Definition is_KeyError (e : Exception) : bool :=
  match exc_class e with
  | OtherError cls => String.eqb cls "KeyError"
  | _ => false
  end.

(** [try: body  except KeyError as e: handler(e)] *)
Definition try_except_KeyError {A} (body : M A) (handler : Exception -> M A) : M A :=
  fun st =>
    match body st with
    | Returns a st' => Returns a st'
    | Raises e st' => if is_KeyError e then handler e st' else Raises e st'
    end.

(** A method of the adapter that returns a value. *)
Definition in_world_value (f : World -> Result Value * World) : M Value :=
  fun st =>
    let '(r, w) := f (world st) in
    let st' := mkState (__dict__ st) w (fs st) in
    match r with
    | Ok v => Returns v st'
    | Err e => Raises e st'
    end.

(** [self.poi], which must be an adapter model for its methods to exist. *)
Definition poi_handle : M poi.Model :=
  handle ← getattr "poi";
  match handle with
  | VPoi model => mret model
  | _ => raise (Exc AttributeError "object has no such method")
  end.

(** [poi.ModelAttribute[name]] *)
Definition ModelAttribute_lookup (name : string) : M ModelAttribute :=
  match ModelAttribute_getitem name with
  | Some attribute => mret attribute
  | None => raise (Exc KeyError name)
  end.

Definition _get_param (name : string) : M Value :=
  model ← poi_handle;
  in_world_value (get_raw_parameter model name).

Definition _set_attr (name : string) (value : Value) : M unit :=
  try_except_KeyError
    (model ← poi_handle;
     attribute ← ModelAttribute_lookup name;
     in_world (fun _ => set_model_attribute model attribute value))
    (fun e =>
       solver_name ← getattr "solver_name";
       if Model.eq_str solver_name "gurobi" then
         model ← poi_handle;
         in_world (fun _ => set_model_raw_attribute model name value)
       else raise e).

Definition _get_attr (name : string) : M Value :=
  try_except_KeyError
    (model ← poi_handle;
     attribute ← ModelAttribute_lookup name;
     in_world_value (get_model_attribute model attribute))
    (fun e =>
       solver_name ← getattr "solver_name";
       if Model.eq_str solver_name "gurobi" then
         model ← poi_handle;
         in_world_value (get_model_raw_attribute model name)
       else raise e).

End ModelAttributes.
End ModelAttributes.

(** An adapter that standardises the attribute [ObjectiveValue] only and
    keeps raw attributes in the world. *)
Module DemoAttributes.

Definition set_raw (model : poi.Model) (name : string) (value : Value)
    (w : World (Collaborators := Demo.highs_and_ipopt))
  : option Exception * World (Collaborators := Demo.highs_and_ipopt) :=
  (None, (w ++ [name])%list).

Definition attributes : AdapterAttributes (H := Demo.highs_and_ipopt) := {|
  ModelAttribute := unit;
  ModelAttribute_getitem := fun name =>
    if String.eqb name "ObjectiveValue" then Some tt else None;
  set_model_attribute := fun _ _ _ w => (Some (Exc RuntimeError "read-only attribute"), w);
  get_model_attribute := fun _ _ w => (Ok (VInt 42), w);
  set_model_raw_attribute := set_raw;
  get_model_raw_attribute := fun _ name w => (Ok (VStr name), w);
  get_raw_parameter := fun _ name w => (Ok (VStr name), w)
|}.

(** The attributes of a Model whose solver is Gurobi. *)
Definition gurobi_model : State (H := Demo.highs_and_ipopt) :=
  mkState (H := Demo.highs_and_ipopt)
    (<["solver_name" := VStr "gurobi"]> (__dict__ Demo.m)) []%list ∅.

End DemoAttributes.

(** * Properties *)

(** ** constants.py *)

(** C7. For every member of ConstraintSense, ObjSense and VType, [to_poi]
    returns the adapter value that corresponds to it (LE to LessEqual, GE to
    GreaterEqual, EQ to Equal; MIN to Minimize, MAX to Maximize; CONTINUOUS
    to Continuous, BINARY to Binary, INTEGER to Integer), so the error
    branch is never taken. *)
Theorem to_poi_exhaustive :
  (forall s, ConstraintSense.to_poi s =
     Ok (match s with
         | ConstraintSense.LE => poi.ConstraintSense.LessEqual
         | ConstraintSense.GE => poi.ConstraintSense.GreaterEqual
         | ConstraintSense.EQ => poi.ConstraintSense.Equal
         end)) /\
  (forall s, ObjSense.to_poi s =
     Ok (match s with
         | ObjSense.MIN => poi.ObjectiveSense.Minimize
         | ObjSense.MAX => poi.ObjectiveSense.Maximize
         end)) /\
  (forall s, VType.to_poi s =
     Ok (match s with
         | VType.CONTINUOUS => poi.VariableDomain.Continuous
         | VType.BINARY => poi.VariableDomain.Binary
         | VType.INTEGER => poi.VariableDomain.Integer
         end)) /\
  (forall s e, ConstraintSense.to_poi s <> Err e) /\
  (forall s e, ObjSense.to_poi s <> Err e) /\
  (forall s e, VType.to_poi s <> Err e).
Proof.
  repeat split; intros s; try intros e; destruct s; vm_compute; congruence.
Qed.

Section ConfigFacts.

Implicit Types (cls : gmap string Value) (items : list (string * Value)).

Lemma metaclass_collects_options :
  Config.at_import !! "_defaults" = Some (VDict documented_defaults).
Proof.
  unfold Config.at_import, _ConfigMeta.__init__.
  rewrite lookup_insert_eq. reflexivity.
Qed.

Lemma documented_names_NoDup : NoDup documented_defaults.*1.
Proof. apply (bool_decide_unpack _). vm_compute. exact I. Qed.

Lemma at_import_documented k v :
  (k, v) ∈ documented_defaults -> Config.at_import !! k = Some v.
Proof.
  unfold documented_defaults. intros Hin.
  repeat (apply elem_of_cons in Hin as [Heq | Hin];
          [inversion Heq; subst; vm_compute; reflexivity |]).
  apply elem_of_nil in Hin. destruct Hin.
Qed.

(** Assigning the items of a dictionary one by one leaves every other
    attribute alone. *)
Lemma setattr_items_other items cls k :
  k ∉ items.*1 ->
  fold_left (fun c kv => Config.setattr kv.1 kv.2 c) items cls !! k = cls !! k.
Proof.
  revert cls. induction items as [| [k' v'] items IH]; intros cls Hk; [done |].
  cbn in *. apply not_elem_of_cons in Hk as [Hne Hk].
  rewrite IH by done. unfold Config.setattr. by rewrite lookup_insert_ne.
Qed.

(** And gives every key of the dictionary its value. *)
Lemma setattr_items_key items cls k v :
  NoDup items.*1 -> (k, v) ∈ items ->
  fold_left (fun c kv => Config.setattr kv.1 kv.2 c) items cls !! k = Some v.
Proof.
  revert cls. induction items as [| [k' v'] items IH]; intros cls Hnd Hin.
  - by apply elem_of_nil in Hin.
  - cbn in *. apply NoDup_cons in Hnd as [Hfresh Hnd].
    apply elem_of_cons in Hin as [Heq | Hin].
    + inversion Heq; subst k' v'.
      rewrite setattr_items_other by done.
      unfold Config.setattr. by rewrite lookup_insert_eq.
    + by apply IH.
Qed.

(** Mutations touch only the attributes they name. *)
Lemma mutate_other (mus : list Config.Mutation) cls k :
  Forall (fun mu => Config.mutated_key mu ≠ k) mus ->
  fold_left Config.mutate mus cls !! k = cls !! k.
Proof.
  revert cls. induction mus as [| mu mus IH]; intros cls Hall; [done |].
  apply Forall_cons in Hall as [Hne Hall]. cbn. rewrite IH by done.
  destruct mu as [k' v' | k']; cbn in *; unfold Config.setattr.
  - by rewrite lookup_insert_ne.
  - by rewrite lookup_delete_ne.
Qed.

End ConfigFacts.

(** C6. After any sequence of assignments to and deletions of the public
    configuration options, [Config.reset_defaults()] returns, every option
    has its documented default again, and the class is back in the state it
    had when the module was imported. *)
Theorem reset_defaults_round_trip (mus : list Config.Mutation) :
  Forall (fun mu => Config.mutated_key mu ∈ documented_defaults.*1) mus ->
  exists cls',
    Config.reset_defaults (fold_left Config.mutate mus Config.at_import) = Ok cls' /\
    (forall k v, (k, v) ∈ documented_defaults -> cls' !! k = Some v) /\
    cls' = Config.at_import.
Proof.
  intros Hmus.
  assert (Hother : forall k, k ∉ documented_defaults.*1 ->
            fold_left Config.mutate mus Config.at_import !! k = Config.at_import !! k).
  { intros k Hk. apply mutate_other.
    eapply Forall_impl; [exact Hmus |]. cbn. intros mu Hmu Heq. apply Hk. by rewrite <- Heq. }
  eexists. split; [| split].
  - unfold Config.reset_defaults. rewrite Hother.
    + rewrite metaclass_collects_options. reflexivity.
    + apply (bool_decide_unpack _). vm_compute. exact I.
  - intros k v Hin. apply setattr_items_key; [apply documented_names_NoDup | done].
  - apply map_eq. intros k.
    destruct (decide (k ∈ documented_defaults.*1)) as [Hk | Hk].
    + apply list_elem_of_fmap in Hk as [[k' v] [-> Hin]].
      change ((k', v).1) with k'.
      rewrite (at_import_documented _ _ Hin).
      apply setattr_items_key; [apply documented_names_NoDup | done].
    + rewrite setattr_items_other by done. by apply Hother.
Qed.

Lemma reset_defaults_round_trip_witness :
  exists cls',
    Config.reset_defaults
      (fold_left Config.mutate
         [ Config.Assign "print_max_lines" (VInt 3);
           Config.Delete "default_solver";
           Config.Assign "integer_tolerance" (VFloat 0 0);
           Config.Assign "default_solver" (VStr "highs") ]
         Config.at_import) = Ok cls' /\
    (forall k v, (k, v) ∈ documented_defaults -> cls' !! k = Some v) /\
    cls' = Config.at_import.
Proof.
  apply reset_defaults_round_trip.
  repeat (apply Forall_cons; split; [apply (bool_decide_unpack _); vm_compute; exact I |]).
  apply Forall_nil. exact I.
Defined.

(** ** model.py *)

Section ModelFacts.
Context `{Collaborators}.

Implicit Types (st : State) (value : Value) (name : string).

(** *** Running a sequence *)

Lemma bind_returns {A B} (m : M A) (k : A -> M B) st a st' :
  m st = Returns a st' -> (m ≫= k) st = k a st'.
Proof. intros Hm. unfold mbind, M_bind. by rewrite Hm. Qed.

Lemma bind_raises {A B} (m : M A) (k : A -> M B) st e st' :
  m st = Raises e st' -> (m ≫= k) st = Raises e st'.
Proof. intros Hm. unfold mbind, M_bind. by rewrite Hm. Qed.

Lemma bind_returns_inv {A B} (m : M A) (k : A -> M B) st b st2 :
  (m ≫= k) st = Returns b st2 ->
  exists a st1, m st = Returns a st1 /\ k a st1 = Returns b st2.
Proof.
  unfold mbind, M_bind. destruct (m st) as [a st1 | e st1]; [eauto | discriminate].
Qed.

Lemma getattr_some name st v :
  __dict__ st !! name = Some v -> getattr name st = Returns v st.
Proof. intros Hv. unfold getattr. by rewrite Hv. Qed.

(** *** Reserved names *)

(** For a reserved name [__setattr__] does no more than
    [object.__setattr__]. *)
Lemma setattr_reserved name value st :
  Model.is_reserved name = true ->
  Model.__setattr__ name value st = Model.super__setattr__ name value st.
Proof.
  intros Hres. unfold Model.__setattr__. rewrite Hres. cbn [negb andb].
  rewrite andb_false_r. reflexivity.
Qed.

Lemma setattr_objective value st :
  Model.__setattr__ "objective" value st = Model.objective_setter value st.
Proof. by rewrite setattr_reserved. Qed.



(** *** The setter of [objective] *)

(** Without an objective the guard is passed, and the setter wraps, records
    and binds. *)
Lemma objective_setter_unset value st :
  __dict__ st !! "_objective" = Some VNone ->
  Model.objective_setter value st = record_and_bind value st.
Proof.
  intros Hcur. unfold Model.objective_setter.
  rewrite (bind_returns _ _ _ _ _ (getattr_some _ _ _ Hcur)).
  cbn [is_None negb andb].
  unfold record_and_bind, mbind, M_bind, mret, M_ret, store, Model.bind_element,
    in_world, Model.Objective.
  destruct (isinstance_Objective value); cbn.
  - by destruct (on_add_to_model _ _ _ _) as [[e |] w].
  - destruct (Objective_new value (world st)) as [[[c id] | e] w]; cbn; [| done].
    by destruct (on_add_to_model _ _ _ _) as [[e |] w'].
Qed.

(** With an objective, a value that is not a constructive Objective is
    refused before anything is written. *)
Lemma objective_setter_guarded value st current :
  __dict__ st !! "_objective" = Some current ->
  current <> VNone ->
  isinstance_Objective value && _constructive_of value = false ->
  Model.objective_setter value st =
    Raises (Exc ValueError "An objective already exists. Use += or -= to modify it.") st.
Proof.
  intros Hcur Hset Hvalue. unfold Model.objective_setter.
  rewrite (bind_returns _ _ _ _ _ (getattr_some _ _ _ Hcur)).
  destruct current; try congruence;
    destruct (isinstance_Objective value), (_constructive_of value);
    try discriminate; reflexivity.
Qed.


(** When the setter returns, an Objective has been recorded: the value
    itself if it is one, the Objective made from it otherwise. *)
Lemma objective_setter_returns value st st' :
  Model.objective_setter value st = Returns tt st' ->
  exists objective,
    isinstance_Objective objective = true /\
    __dict__ st' = <["_objective" := objective]> (__dict__ st) /\
    (isinstance_Objective value = true -> objective = value).
Proof.
  unfold Model.objective_setter, mbind, M_bind, getattr.
  destruct (__dict__ st !! "_objective") as [current |]; [| discriminate].
  destruct (negb (is_None current) && _); [discriminate |].
  unfold mret, M_ret, store, Model.bind_element, in_world, Model.Objective.
  destruct (isinstance_Objective value) eqn:Hobj; cbn.
  - destruct (on_add_to_model _ _ _ _) as [[e |] w]; [discriminate |].
    intros [= <-]. by exists value.
  - destruct (Objective_new value (world st)) as [[[c id] | e] w]; cbn; [| discriminate].
    destruct (on_add_to_model _ _ _ _) as [[e |] w']; [discriminate |].
    intros [= <-]. by exists (VObjective c id).
Qed.




End ModelFacts.

(** C5. Assigning, under a name that is not reserved, a value that is
    neither a ModelElement nor a dataframe raises a PyoframeError; the Model
    is left as it was, so nothing is added to its variables or
    constraints. *)
Theorem setattr_rejects_non_element `{Collaborators} (st : State)
    (name : string) (value : Value) :
  Model.is_reserved name = false ->
  isinstance_ModelElement value = false ->
  isinstance_DataFrame value = false ->
  Model.__setattr__ name value st =
    Raises (Exc PyoframeError
              ("Cannot set attribute '" ++ name ++
               "' on the model because it isn't of type ModelElement (e.g. Variable, Constraint, ...)"))
           st /\
  __dict__ (final_state (Model.__setattr__ name value st)) !! "_variables"
    = __dict__ st !! "_variables" /\
  __dict__ (final_state (Model.__setattr__ name value st)) !! "_constraints"
    = __dict__ st !! "_constraints".
Proof.
  intros Hres Helem Hdf.
  assert (Hraise : Model.__setattr__ name value st =
    Raises (Exc PyoframeError
              ("Cannot set attribute '" ++ name ++
               "' on the model because it isn't of type ModelElement (e.g. Variable, Constraint, ...)"))
           st).
  { unfold Model.__setattr__. rewrite Hres, Helem, Hdf. reflexivity. }
  rewrite Hraise. auto.
Qed.

(** C1, as the code has it.  On a Model whose objective has been set,
    assigning to [Model.objective] a value that is not an Objective marked
    as constructive raises a ValueError and leaves the Model, hence its
    objective, unchanged.  On a Model with no objective the guard lets the
    assignment through: the value, wrapped into an Objective when it is not
    one, is recorded as the objective and then bound to the Model.  The
    assignment returns exactly when the wrapping and the binding return,
    and then the objective is that Objective and no other attribute has
    changed; an error of the wrapping or of the binding reaches the caller,
    the latter with the Objective already recorded. *)
Theorem objective_assignment `{Collaborators} (st : State) (value : Value) :
  (forall current,
     __dict__ st !! "_objective" = Some current ->
     current <> VNone ->
     isinstance_Objective value && _constructive_of value = false ->
     Model.__setattr__ "objective" value st =
       Raises (Exc ValueError "An objective already exists. Use += or -= to modify it.") st) /\
  (__dict__ st !! "_objective" = Some VNone ->
     Model.__setattr__ "objective" value st = record_and_bind value st /\
     (forall st',
        Model.__setattr__ "objective" value st = Returns tt st' ->
        exists objective,
          isinstance_Objective objective = true /\
          __dict__ st' = <["_objective" := objective]> (__dict__ st) /\
          (isinstance_Objective value = true -> objective = value)) /\
     (forall r w,
        isinstance_Objective value = true ->
        on_add_to_model value (<["_objective" := value]> (__dict__ st)) "objective" (world st)
          = (r, w) ->
        Model.__setattr__ "objective" value st =
          match r with
          | None => Returns tt (mkState (<["_objective" := value]> (__dict__ st)) w (fs st))
          | Some e => Raises e (mkState (<["_objective" := value]> (__dict__ st)) w (fs st))
          end) /\
     (forall e w,
        isinstance_Objective value = false ->
        Objective_new value (world st) = (Err e, w) ->
        Model.__setattr__ "objective" value st = Raises e (mkState (__dict__ st) w (fs st))) /\
     (forall c id w1 r w2,
        isinstance_Objective value = false ->
        Objective_new value (world st) = (Ok (c, id), w1) ->
        on_add_to_model (VObjective c id)
          (<["_objective" := VObjective c id]> (__dict__ st)) "objective" w1 = (r, w2) ->
        Model.__setattr__ "objective" value st =
          match r with
          | None =>
              Returns tt (mkState (<["_objective" := VObjective c id]> (__dict__ st)) w2 (fs st))
          | Some e =>
              Raises e (mkState (<["_objective" := VObjective c id]> (__dict__ st)) w2 (fs st))
          end)).
Proof.
  split.
  - intros current Hcur Hset Hvalue. rewrite setattr_objective.
    by apply (objective_setter_guarded _ _ current).
  - intros Hcur. rewrite setattr_objective, (objective_setter_unset _ _ Hcur).
    split; [done |]. split; [| split; [| split]].
    + intros st'. rewrite <- (objective_setter_unset _ _ Hcur).
      apply objective_setter_returns.
    + intros r w Hobj Hbind. unfold record_and_bind. rewrite Hobj, Hbind.
      by destruct r.
    + intros e w Hobj Hwrap. unfold record_and_bind. by rewrite Hobj, Hwrap.
    + intros c id w1 r w2 Hobj Hwrap Hbind. unfold record_and_bind.
      rewrite Hobj, Hwrap, Hbind. by destruct r.
Qed.


Section Attachment.
Context `{Collaborators}.

Implicit Types (st : State) (value : Value) (name : string).

Lemma with_id_is_element value :
  isinstance_ModelElementWithId value = true -> isinstance_ModelElement value = true.
Proof. destruct value as [| | | | | | | | | | [] | | | |]; cbn; congruence. Qed.

(** On a constructed Model every read-only property can be read, and the
    three properties with a setter carry reserved names. *)
Lemma hasattr_existing name st existing :
  constructed st ->
  Model.is_reserved name = false ->
  __dict__ st !! name = Some existing ->
  Model.hasattr name st = Returns true st.
Proof.
  intros (Hvars & Hcons & Huse) Hres Hname.
  destruct Hvars as [vars Hvars], Hcons as [cons Hcons], Huse as [use Huse].
  unfold Model.hasattr, Model.property_getter.
  repeat lazymatch goal with
  | |- context [String.eqb name ?s] =>
      let E := fresh "E" in
      destruct (String.eqb name s) eqn:E;
        [apply String.eqb_eq in E; subst name; try discriminate Hres |]
  end.
  - unfold Model.use_var_names. by rewrite (getattr_some _ _ _ Huse).
  - unfold Model.variables. by rewrite (getattr_some _ _ _ Hvars).
  - unfold Model.binary_variables, Model.variables.
    by rewrite (bind_returns _ _ _ _ _ (getattr_some _ _ _ Hvars)).
  - unfold Model.integer_variables, Model.variables.
    by rewrite (bind_returns _ _ _ _ _ (getattr_some _ _ _ Hvars)).
  - unfold Model.constraints. by rewrite (getattr_some _ _ _ Hcons).
  - rewrite Hname. reflexivity.
Qed.

(** What makes a name hold an element: an assignment under a name that is
    not reserved, when it returns, has written the value under that name. *)
Lemma attach_records name value st st' :
  Model.is_reserved name = false ->
  Model.__setattr__ name value st = Returns tt st' ->
  __dict__ st' !! name = Some value.
Proof.
  intros Hres. unfold Model.__setattr__. rewrite Hres. cbn [negb andb].
  destruct (negb _); [discriminate |].
  intros Hrun. apply bind_returns_inv in Hrun as ([] & st1 & _ & Hrun).
  revert Hrun. unfold Model.super__setattr__, Model.property_setter.
  repeat lazymatch goal with
  | |- context [String.eqb name ?s] =>
      let E := fresh "E" in
      destruct (String.eqb name s) eqn:E;
        [apply String.eqb_eq in E; subst name; discriminate Hres |]
  end.
  destruct (Model.property_getter name); [discriminate |].
  intros [= <-]. cbn. apply lookup_insert_eq.
Qed.

End Attachment.

(** C3. On a constructed Model, when an attribute name that is open to
    attachment (not one of the Model's reserved names) already holds an
    ID-bearing element, attaching another ID-bearing element under that name
    raises an AssertionError and leaves the Model as it was: the element
    held under the name is not replaced. *)
Theorem setattr_rejects_rebinding `{Collaborators} (st : State)
    (name : string) (existing value : Value) :
  constructed st ->
  Model.is_reserved name = false ->
  __dict__ st !! name = Some existing ->
  isinstance_ModelElementWithId existing = true ->
  isinstance_ModelElementWithId value = true ->
  Model.__setattr__ name value st =
    Raises (Exc AssertionError ("Cannot create " ++ name ++ " since it was already created.")) st /\
  __dict__ (final_state (Model.__setattr__ name value st)) !! name = Some existing.
Proof.
  intros Hcons Hres Hname _ Hvalue.
  assert (Hraise : Model.__setattr__ name value st =
    Raises (Exc AssertionError ("Cannot create " ++ name ++ " since it was already created.")) st).
  { unfold Model.__setattr__.
    rewrite Hres, Hvalue, (with_id_is_element _ Hvalue). cbn [negb andb orb when].
    apply bind_raises, bind_raises.
    by rewrite (bind_returns _ _ _ _ _ (hasattr_existing _ _ _ Hcons Hres Hname)). }
  rewrite Hraise. auto.
Qed.

(** *** The invariant of a Model *)

Section Invariant.
Context `{Collaborators}.

Implicit Types (st : State) (value : Value) (name : string).

Lemma invariant_same_dict st st' :
  __dict__ st' = __dict__ st -> model_invariant st -> model_invariant st'.
Proof.
  unfold model_invariant, objective_well_typed, constructed.
  intros ->. done.
Qed.

Lemma invariant_insert st name value w files :
  (name = "_objective" -> None_or_Objective value) ->
  model_invariant st ->
  model_invariant (mkState (<[name := value]> (__dict__ st)) w files).
Proof.
  intros Hvalue [Hobj (Hv & Hc & Hu)]. split.
  - unfold objective_well_typed in *. cbn.
    destruct (decide (name = "_objective")) as [-> | Hne].
    + rewrite lookup_insert_eq.
      destruct (Hvalue eq_refl) as [-> | Hisobj]; [by left | right].
      destruct value; try discriminate. eauto.
    + by rewrite lookup_insert_ne.
  - unfold constructed. cbn. rewrite !lookup_insert_is_Some.
    repeat split.
    + destruct (decide (name = "_variables")); auto.
    + destruct (decide (name = "_constraints")); auto.
    + destruct (decide (name = "_use_var_names")); auto.
Qed.

Lemma maintains_bind {A B} (m : M A) (k : A -> M B) (Q : A -> Prop) (R : B -> Prop) :
  maintains m Q -> (forall a, Q a -> maintains (k a) R) -> maintains (m ≫= k) R.
Proof.
  intros Hm Hk st Hst. specialize (Hm st Hst).
  unfold mbind, M_bind. destruct (m st) as [a st1 | e st1]; [| done].
  destruct Hm as [Hst1 Ha]. by apply Hk.
Qed.

Lemma maintains_ret {A} (a : A) (Q : A -> Prop) : Q a -> maintains (mret a) Q.
Proof. intros Ha st Hst. by split. Qed.

Lemma maintains_raise {A} e (Q : A -> Prop) : maintains (raise e) Q.
Proof. intros st Hst. done. Qed.

Lemma maintains_getattr name : maintains (getattr name) (fun _ => True).
Proof. intros st Hst. unfold getattr. by destruct (__dict__ st !! name). Qed.

Lemma maintains_store name value :
  (name = "_objective" -> None_or_Objective value) ->
  maintains (store name value) (fun _ => True).
Proof. intros Hvalue st Hst. split; [| done]. by apply invariant_insert. Qed.

Lemma maintains_append name value :
  name <> "_objective" -> maintains (append name value) (fun _ => True).
Proof.
  intros Hne. unfold append.
  eapply maintains_bind; [apply maintains_getattr |]. intros l _.
  destruct l; try apply maintains_raise. by apply maintains_store.
Qed.

Lemma maintains_in_world f : maintains (in_world f) (fun _ => True).
Proof.
  intros st Hst. unfold in_world.
  destruct (f (__dict__ st) (world st)) as [[e |] w];
    [| split; [| done]]; by apply (invariant_same_dict st).
Qed.

Lemma maintains_in_fs f : maintains (Model.in_fs f) (fun _ => True).
Proof.
  intros st Hst. unfold Model.in_fs.
  destruct (f (fs st)); [split; [| done] |]; by apply (invariant_same_dict st).
Qed.

Lemma maintains_when (b : bool) body :
  maintains body (fun _ => True) -> maintains (when b body) (fun _ => True).
Proof. intros Hbody. destruct b; [done |]. by apply maintains_ret. Qed.

Lemma maintains_Objective value :
  maintains (Model.Objective value) (fun o => isinstance_Objective o = true).
Proof.
  intros st Hst. unfold Model.Objective.
  destruct (Objective_new value (world st)) as [[[c id] | e] w];
    [split; [| done] |]; by apply (invariant_same_dict st).
Qed.

Lemma maintains_bind_element value name :
  maintains (Model.bind_element value name) (fun _ => True).
Proof. apply maintains_in_world. Qed.

End Invariant.

Section Operations.
Context `{Collaborators}.

Implicit Types (st : State) (value : Value) (name : string).

Lemma maintains_objective_setter value :
  maintains (Model.objective_setter value) (fun _ => True).
Proof.
  unfold Model.objective_setter.
  eapply maintains_bind; [apply maintains_getattr |]. intros current _.
  destruct (negb (is_None current) && _); [apply maintains_raise |].
  eapply maintains_bind with (Q := fun o => isinstance_Objective o = true).
  - destruct (isinstance_Objective value) eqn:E; cbn [negb].
    + by apply maintains_ret.
    + apply maintains_Objective.
  - intros o Ho. eapply maintains_bind.
    + apply maintains_store. intros _. by right.
    + intros _ _. apply maintains_bind_element.
Qed.

Lemma maintains_sense_setter (member : ObjSense.t) (message : string) value :
  maintains
    (sense ← getattr "sense";
     when (is_None sense) (store "sense" (VObjSense member)) ;;
     sense ← getattr "sense";
     if negb (eq_ObjSense sense member)
     then raise (Exc ValueError message)
     else Model.objective_setter value)
    (fun _ => True).
Proof.
  eapply maintains_bind; [apply maintains_getattr |]. intros sense _.
  eapply maintains_bind.
  { apply maintains_when, maintains_store. discriminate. }
  intros _ _. eapply maintains_bind; [apply maintains_getattr |]. intros sense' _.
  destruct (negb _); [apply maintains_raise | apply maintains_objective_setter].
Qed.

Lemma maintains_minimize_setter value :
  maintains (Model.minimize_setter value) (fun _ => True).
Proof. apply maintains_sense_setter. Qed.

Lemma maintains_maximize_setter value :
  maintains (Model.maximize_setter value) (fun _ => True).
Proof. apply maintains_sense_setter. Qed.

Lemma maintains_sense_getter (member : ObjSense.t) (message : string) :
  maintains
    (sense ← getattr "sense";
     if negb (eq_ObjSense sense member)
     then raise (Exc ValueError message)
     else getattr "_objective")
    (fun _ => True).
Proof.
  eapply maintains_bind; [apply maintains_getattr |]. intros sense _.
  destruct (negb _); [apply maintains_raise | apply maintains_getattr].
Qed.

Lemma maintains_property_getter name getter :
  Model.property_getter name = Some getter -> maintains getter (fun _ => True).
Proof.
  unfold Model.property_getter.
  repeat (destruct (String.eqb name _);
          [intros [= <-];
           first [ apply maintains_getattr
                 | apply maintains_sense_getter
                 | eapply maintains_bind;
                   [apply maintains_getattr | intros; by apply maintains_ret] ] |]).
  discriminate.
Qed.

Lemma maintains_hasattr name : maintains (Model.hasattr name) (fun _ => True).
Proof.
  intros st Hst. unfold Model.hasattr.
  destruct (Model.property_getter name) as [getter |] eqn:E; [| done].
  pose proof (maintains_property_getter _ _ E st Hst) as Hget.
  destruct (getter st) as [v st' | e st'].
  - destruct Hget. done.
  - destruct (exc_class e); done.
Qed.

Lemma maintains_super_setattr name value :
  name <> "_objective" ->
  maintains (Model.super__setattr__ name value) (fun _ => True).
Proof.
  intros Hne. unfold Model.super__setattr__, Model.property_setter.
  repeat (destruct (String.eqb name _);
          [first [ apply maintains_objective_setter
                 | apply maintains_minimize_setter
                 | apply maintains_maximize_setter ] |]).
  destruct (Model.property_getter name); [apply maintains_raise |].
  by apply maintains_store.
Qed.

Lemma maintains_setattr name value :
  name <> "_objective" ->
  maintains (Model.__setattr__ name value) (fun _ => True).
Proof.
  intros Hne. unfold Model.__setattr__.
  destruct (negb (Model.is_reserved name) && _); [apply maintains_raise |].
  eapply maintains_bind; [| intros _ _; by apply maintains_super_setattr].
  apply maintains_when.
  eapply maintains_bind.
  { apply maintains_when. eapply maintains_bind; [apply maintains_hasattr |].
    intros b _. apply maintains_when, maintains_raise. }
  intros _ _. eapply maintains_bind; [apply maintains_bind_element |].
  intros _ _. destruct (isinstance_Variable value).
  - eapply maintains_bind; [by apply maintains_append |].
    intros _ _. eapply maintains_bind; [apply maintains_getattr |].
    intros var_map _. apply maintains_when, maintains_in_world.
  - apply maintains_when. by apply maintains_append.
Qed.

Lemma maintains_write file_path pretty :
  maintains (Model.write file_path pretty) (fun _ => True).
Proof.
  unfold Model.write.
  eapply maintains_bind; [apply maintains_in_fs |]. intros _ _.
  eapply maintains_bind; [apply maintains_getattr |]. intros solver_name _.
  destruct (Model.eq_str solver_name "ipopt"); [apply maintains_raise |].
  eapply maintains_bind; [apply maintains_getattr |]. intros solver_name' _.
  eapply maintains_bind with (Q := fun _ => True).
  { destruct (Model.eq_str solver_name' "highs"); [| by apply maintains_ret].
    eapply maintains_bind; [apply maintains_getattr |]. intros flag _.
    eapply maintains_bind; [| intros; by apply maintains_ret].
    apply maintains_when. unfold Model.params_set, Model._set_param.
    eapply maintains_bind; [apply maintains_getattr |]. intros _ _.
    eapply maintains_bind; [apply maintains_getattr |]. intros handle _.
    destruct handle; first [apply maintains_raise | apply maintains_in_world]. }
  intros kwargs _.
  eapply maintains_bind; [apply maintains_getattr |]. intros handle _.
  destruct handle; try apply maintains_raise.
  intros st Hst. apply (maintains_in_fs _ st Hst).
Qed.

End Operations.

(** *** Construction *)

Section Construction.
Context `{Collaborators}.

Implicit Types (st : State) (value : Value).

(** A reserved name that is not a property is written to the instance
    dictionary. *)
Lemma setattr_plain (name : string) value st :
  Model.is_reserved name = true ->
  Model.property_setter name = None ->
  Model.property_getter name = None ->
  Model.__setattr__ name value st =
    Returns tt (mkState (<[name := value]> (__dict__ st)) (world st) (fs st)).
Proof.
  intros Hres Hset Hget. rewrite setattr_reserved by done.
  unfold Model.super__setattr__. by rewrite Hset, Hget.
Qed.

(** The dictionary of a Model right after its construction. *)
Lemma new_returns Config name solver solver_env use_var_names sense w files st :
  Model.new Config name solver solver_env use_var_names sense w files = Returns tt st ->
  exists model solver_name sense' var_map,
    Model.create_poi_model Config solver solver_env = Ok (model, solver_name) /\
    __dict__ st =
      <["_use_var_names" := use_var_names]>
      (<["attr" := VContainer "_set_attr" "_get_attr"]>
      (<["params" := VContainer "_set_param" "_get_param"]>
      (<["name" := name]>
      (<["var_map" := var_map]>
      (<["_objective" := VNone]>
      (<["sense" := sense']>
      (<["_constraints" := VList []]>
      (<["_variables" := VList []]>
      (<["solver_name" := VStr solver_name]>
      (<["poi" := VPoi model]> ∅)))))))))).
Proof.
  unfold Model.new, Model.__init__. intros Hrun.
  apply bind_returns_inv in Hrun as ([model solver_name] & st1 & Hcreate & Hrun).
  unfold lift in Hcreate.
  destruct (Model.create_poi_model Config solver solver_env) as [created | e] eqn:Ecreate;
    [| discriminate].
  injection Hcreate as -> <-.
  repeat (apply bind_returns_inv in Hrun as ([] & ? & Hstep & Hrun);
          rewrite setattr_plain in Hstep by reflexivity;
          injection Hstep as <-; cbn [__dict__ world fs] in Hrun).
  apply bind_returns_inv in Hrun as (sense' & st2 & Hsense & Hrun).
  assert (st2 = mkState
            (<["_constraints" := VList []]>
             (<["_variables" := VList []]>
              (<["solver_name" := VStr solver_name]>
               (<["poi" := VPoi model]> ∅)))) w files) as ->.
  { destruct (negb (is_None sense)); [| by injection Hsense as _ <-].
    unfold lift in Hsense. destruct (Model.ObjSense_call sense); [| discriminate].
    by injection Hsense as _ <-. }
  repeat (apply bind_returns_inv in Hrun as ([] & ? & Hstep & Hrun);
          rewrite setattr_plain in Hstep by reflexivity;
          injection Hstep as <-; cbn [__dict__ world fs] in Hrun).
  apply bind_returns_inv in Hrun as (flag & st3 & Hflag & Hrun).
  unfold lift in Hflag.
  destruct (Config !! "print_uses_variable_names"); [| discriminate].
  injection Hflag as _ <-.
  apply bind_returns_inv in Hrun as (var_map & st4 & Hmap & Hrun).
  assert (__dict__ st4 =
            <["_objective" := VNone]>
            (<["sense" := sense']>
            (<["_constraints" := VList []]>
            (<["_variables" := VList []]>
            (<["solver_name" := VStr solver_name]>
            (<["poi" := VPoi model]> ∅)))))) as Hdict.
  { destruct (truthy flag); [| by injection Hmap as _ <-].
    unfold Model.NamedVariableMapper in Hmap. cbn in Hmap.
    destruct (NamedVariableMapper_new w). by injection Hmap as _ <-. }
  repeat (apply bind_returns_inv in Hrun as ([] & ? & Hstep & Hrun);
          rewrite setattr_plain in Hstep by reflexivity;
          injection Hstep as <-; cbn [__dict__ world fs] in Hrun).
  rewrite setattr_plain in Hrun by reflexivity. injection Hrun as <-.
  exists model, solver_name, sense', var_map. split; [done |].
  cbn [__dict__]. by rewrite Hdict.
Qed.

Lemma new_invariant Config name solver solver_env use_var_names sense w files st :
  Model.new Config name solver solver_env use_var_names sense w files = Returns tt st ->
  model_invariant st.
Proof.
  intros Hnew. apply new_returns in Hnew as (model & sn & sense' & vm & _ & Hdict).
  unfold model_invariant, objective_well_typed, constructed. rewrite Hdict.
  split; [left | repeat split]; by simplify_map_eq.
Qed.

Lemma reachable_invariant st : reachable st -> model_invariant st.
Proof.
  induction 1 as [? ? ? ? ? ? ? ? st Hnew
                 | st name value _ IH Hne
                 | st file_path pretty _ IH].
  - by eapply new_invariant.
  - pose proof (maintains_setattr name value Hne st IH) as Hstep.
    destruct (Model.__setattr__ name value st); cbn; [by destruct Hstep | done].
  - pose proof (maintains_write file_path pretty st IH) as Hstep.
    destruct (Model.write file_path pretty st); cbn; [by destruct Hstep | done].
Qed.

End Construction.

(** C9. When an assignment to [Model.objective] returns, the attribute
    [_objective] holds an Objective: the assigned value itself when it is
    one, and otherwise the Objective that wrapping the value produced.
    Hence in every state of a Model that is reached by constructing it,
    assigning its attributes (other than the private [_objective]) and
    writing it, [Model.objective] is None or an Objective. *)
Theorem objective_is_None_or_Objective `{Collaborators} :
  (forall st value st',
     Model.__setattr__ "objective" value st = Returns tt st' ->
     exists c id,
       __dict__ st' !! "_objective" = Some (VObjective c id) /\
       (isinstance_Objective value = true -> value = VObjective c id) /\
       (isinstance_Objective value = false ->
          exists w, Objective_new value (world st) = (Ok (c, id), w))) /\
  (forall st, reachable st ->
     exists v, Model.objective st = Returns v st /\ None_or_Objective v).
Proof.
  split.
  - intros st value st'. rewrite setattr_objective. unfold Model.objective_setter.
    intros Hrun.
    apply bind_returns_inv in Hrun as (current & st0 & Hget & Hrun).
    unfold getattr in Hget. destruct (__dict__ st !! "_objective"); [| discriminate].
    injection Hget as _ <-.
    destruct (negb (is_None current) && _); [discriminate |].
    apply bind_returns_inv in Hrun as (o & st1 & Hwrap & Hrun).
    apply bind_returns_inv in Hrun as ([] & st2 & Hstore & Hrun).
    injection Hstore as <-.
    unfold Model.bind_element, in_world in Hrun. cbn [__dict__ world fs] in Hrun.
    destruct (on_add_to_model _ _ _ _) as [[e |] w2]; [discriminate |].
    injection Hrun as <-. cbn [__dict__].
    destruct (isinstance_Objective value) eqn:Hobj; cbn [negb] in Hwrap.
    + injection Hwrap as <- <-. destruct value; try discriminate.
      eexists _, _. rewrite lookup_insert_eq. split; [done |]. split; [done | discriminate].
    + unfold Model.Objective in Hwrap.
      destruct (Objective_new value (world st)) as [[[c id] | e] w1] eqn:Enew;
        [| discriminate].
      injection Hwrap as <- <-. exists c, id. rewrite lookup_insert_eq.
      split; [done |]. split; [discriminate | eauto].
  - intros st Hreach. apply reachable_invariant in Hreach as [Hobj _].
    unfold Model.objective.
    destruct Hobj as [Hobj | (c & id & Hobj)]; rewrite (getattr_some _ _ _ Hobj);
      eexists; (split; [done |]); [by left | by right].
Qed.

(** *** The constant term *)

Section ConstantTerm.
Context `{Collaborators}.

Lemma named_constant_term solver solver_env model solver_name :
  Model.create_poi_model_named solver solver_env = Ok (model, solver_name) ->
  has_constant_term model.
Proof.
  unfold Model.create_poi_model_named, mbind, Result_bind, rbind.
  destruct (Model.adapter_model (lower solver) solver_env) as [fresh | e]; [| discriminate].
  unfold Model.add_variable. cbn [poi.index].
  destruct (next_index fresh =? CONST_TERM) eqn:E; cbn [negb]; [| discriminate].
  intros [= <- _]. apply Z.eqb_eq in E. exists fresh. by rewrite E.
Qed.

Lemma detect_constant_term options solver_env model solver_name :
  Model.detect_solver options solver_env = Ok (model, solver_name) ->
  has_constant_term model.
Proof.
  induction options as [| solver_option rest IH]; cbn; [discriminate |].
  destruct (Model.create_poi_model_named solver_option solver_env) as [[m s] | e] eqn:E.
  - intros [= <- <-]. by eapply named_constant_term.
  - destruct (issubclass_RuntimeError (exc_class e)); [done | discriminate].
Qed.

Lemma created_constant_term Config solver solver_env model solver_name :
  Model.create_poi_model Config solver solver_env = Ok (model, solver_name) ->
  has_constant_term model.
Proof.
  unfold Model.create_poi_model.
  destruct solver as [solver |]; [apply named_constant_term |].
  destruct (Config !! "default_solver") as [[] |];
    first [discriminate | apply detect_constant_term | apply named_constant_term].
Qed.

(** The index check: a first variable that does not get index 0 stops the
    construction. *)
Lemma named_index_check solver solver_env fresh :
  Model.adapter_model (lower solver) solver_env = Ok fresh ->
  next_index fresh <> CONST_TERM ->
  Model.create_poi_model_named solver solver_env =
    Err (Exc ValueError "The first variable should have index 0.").
Proof.
  intros Hfresh Hindex.
  unfold Model.create_poi_model_named, mbind, Result_bind, rbind. rewrite Hfresh.
  unfold Model.add_variable. cbn [poi.index].
  apply Z.eqb_neq in Hindex. by rewrite Hindex.
Qed.

End ConstantTerm.

(** C2. A Model that has just been constructed, whichever solver was asked
    for or detected, holds an adapter model in which the variable ONE exists
    with index 0 and with lower and upper bound 1, and no user variable is
    bound yet.  When the solver gives the first variable another index, the
    construction raises: with the ValueError of the index check for a named
    solver whose adapter could be made, and in any case it does not
    return. *)
Theorem constant_term_variable `{Collaborators} (Config : gmap string Value)
    (name : Value) (solver : option string)
    (solver_env : option (list (string * string)))
    (use_var_names sense : Value) (w : World)
    (files : gmap (list string) pathlib.Node) :
  CONST_TERM = 0 /\
  (forall st,
     Model.new Config name solver solver_env use_var_names sense w files = Returns tt st ->
     exists model,
       __dict__ st !! "poi" = Some (VPoi model) /\
       has_constant_term model /\
       poi.mkVariableIndex 0 1 1 "ONE" ∈ poi.variables model /\
       __dict__ st !! "_variables" = Some (VList [])) /\
  (forall solver' fresh,
     solver = Some solver' ->
     Model.adapter_model (lower solver') solver_env = Ok fresh ->
     next_index fresh <> 0 ->
     Model.new Config name solver solver_env use_var_names sense w files =
       Raises (Exc ValueError "The first variable should have index 0.")
              (mkState ∅ w files)) /\
  ((forall model, next_index model <> 0) ->
   exists e,
     Model.new Config name solver solver_env use_var_names sense w files =
       Raises e (mkState ∅ w files)).
Proof.
  split; [reflexivity |]. split; [| split].
  - intros st Hnew.
    apply new_returns in Hnew as (model & sn & sense' & vm & Hcreate & Hdict).
    exists model. rewrite Hdict.
    pose proof (created_constant_term _ _ _ _ _ Hcreate) as Hone.
    split; [by simplify_map_eq |]. split; [done |]. split; [| by simplify_map_eq].
    destruct Hone as (fresh & _ & ->). cbn. apply elem_of_app. right.
    apply list_elem_of_singleton. reflexivity.
  - intros solver' fresh -> Hfresh Hindex.
    unfold Model.new, Model.__init__, Model.create_poi_model.
    rewrite (named_index_check _ _ _ Hfresh Hindex). reflexivity.
  - intros Hindex. unfold Model.new, Model.__init__.
    destruct (Model.create_poi_model Config solver solver_env) as [[model sn] | e] eqn:E.
    + apply created_constant_term in E as (fresh & Hzero & _).
      by apply Hindex in Hzero.
    + by exists e.
Qed.

(** *** Solver detection *)

Section Detection.
Context `{Collaborators}.

Lemma detect_solver_skips skipped options solver_env :
  Forall (fun s => fails_with_RuntimeError (Model.create_poi_model_named s solver_env))
         skipped ->
  Model.detect_solver (skipped ++ options)%list solver_env =
    Model.detect_solver options solver_env.
Proof.
  induction 1 as [| s skipped (e & He & Hclass) _ IH]; [done |].
  cbn. by rewrite He, Hclass.
Qed.

Lemma detect_solver_stops s rest solver_env :
  ~ fails_with_RuntimeError (Model.create_poi_model_named s solver_env) ->
  Model.detect_solver (s :: rest) solver_env =
    Model.create_poi_model_named s solver_env.
Proof.
  intros Hstop. cbn.
  destruct (Model.create_poi_model_named s solver_env) as [r | e]; [done |].
  destruct (issubclass_RuntimeError (exc_class e)) eqn:E; [| done].
  destruct Hstop. by exists e.
Qed.

End Detection.

(** C4, as the code has it.  With no solver given and no default solver
    configured, the adapter constructors are tried in the order gurobi,
    highs, ipopt.  A solver whose construction raises a RuntimeError is
    skipped; the first construction that does anything else decides the
    outcome, be it a model or another exception.  When all three raise a
    RuntimeError, the caller gets the ValueError saying that no solver could
    be found, not the failure of the last constructor. *)
Theorem solver_detection `{Collaborators} (Config : gmap string Value)
    (solver_env : option (list (string * string))) :
  Config !! "default_solver" = Some VNone ->
  SUPPORTED_SOLVERS = ["gurobi"; "highs"; "ipopt"] /\
  (forall skipped s rest,
     SUPPORTED_SOLVERS = (skipped ++ s :: rest)%list ->
     Forall (fun s' => fails_with_RuntimeError (Model.create_poi_model_named s' solver_env))
            skipped ->
     ~ fails_with_RuntimeError (Model.create_poi_model_named s solver_env) ->
     Model.create_poi_model Config None solver_env =
       Model.create_poi_model_named s solver_env) /\
  (Forall (fun s' => fails_with_RuntimeError (Model.create_poi_model_named s' solver_env))
          SUPPORTED_SOLVERS ->
   Model.create_poi_model Config None solver_env = Err Model.no_solver_found /\
   exc_class Model.no_solver_found = ValueError).
Proof.
  intros Hdefault. split; [reflexivity |].
  unfold Model.create_poi_model. rewrite Hdefault. split.
  - intros skipped s rest -> Hskipped Hstop.
    rewrite detect_solver_skips by done. by apply detect_solver_stops.
  - intros Hall. split; [| reflexivity].
    rewrite <- (app_nil_r SUPPORTED_SOLVERS).
    by rewrite detect_solver_skips.
Qed.

Lemma solver_detection_witness :
  SUPPORTED_SOLVERS = ["gurobi"; "highs"; "ipopt"] /\
  (forall skipped s rest,
     SUPPORTED_SOLVERS = (skipped ++ s :: rest)%list ->
     Forall (fun s' => fails_with_RuntimeError
                         (Model.create_poi_model_named (H := Demo.highs_and_ipopt) s' None))
            skipped ->
     ~ fails_with_RuntimeError (Model.create_poi_model_named (H := Demo.highs_and_ipopt) s None) ->
     Model.create_poi_model (H := Demo.highs_and_ipopt) Config.at_import None None =
       Model.create_poi_model_named (H := Demo.highs_and_ipopt) s None) /\
  (Forall (fun s' => fails_with_RuntimeError
                       (Model.create_poi_model_named (H := Demo.highs_and_ipopt) s' None))
          SUPPORTED_SOLVERS ->
   Model.create_poi_model (H := Demo.highs_and_ipopt) Config.at_import None None
     = Err Model.no_solver_found /\
   exc_class Model.no_solver_found = ValueError).
Proof.
  apply (solver_detection (H := Demo.highs_and_ipopt) Config.at_import None).
  vm_compute. reflexivity.
Defined.

(** C4, as the claim words it, fails: on a machine where the three
    constructors raise a RuntimeError each, the error that reaches the caller
    is the ValueError of the detection, whereas the failure of the last
    constructor tried, ipopt, is a RuntimeError. *)
Lemma detection_error_is_not_the_last_failure :
  Config.at_import !! "default_solver" = Some VNone /\
  Model.create_poi_model_named (H := Demo.no_solver) "gurobi" None
    = Err (Demo.not_installed "gurobi") /\
  Model.create_poi_model_named (H := Demo.no_solver) "highs" None
    = Err (Demo.not_installed "highs") /\
  Model.create_poi_model_named (H := Demo.no_solver) "ipopt" None
    = Err (Exc RuntimeError "ipopt is not installed") /\
  Model.create_poi_model (H := Demo.no_solver) Config.at_import None None
    = Err Model.no_solver_found /\
  Model.create_poi_model (H := Demo.no_solver) Config.at_import None None
    <> Model.create_poi_model_named (H := Demo.no_solver) "ipopt" None.
Proof.
  repeat split; try (vm_compute; reflexivity).
  vm_compute. discriminate.
Qed.

(** *** Writing *)

Section FileSystem.

Import pathlib.

Implicit Types (p q : list string) (files : gmap (list string) Node).

Lemma extends_refl files : extends_with_directories files files.
Proof. split; auto. Qed.

Lemma extends_trans files1 files2 files3 :
  extends_with_directories files1 files2 ->
  extends_with_directories files2 files3 ->
  extends_with_directories files1 files3.
Proof.
  intros [Hkeep1 Hnew1] [Hkeep2 Hnew2]. split; [by auto |].
  intros q node Hq. destruct (Hnew2 _ _ Hq) as [Hq2 | ->]; auto.
Qed.

Lemma os_mkdir_ok p files files' :
  os_mkdir p files = Ok files' ->
  is_dir files' p = true /\ extends_with_directories files files'.
Proof.
  unfold os_mkdir. destruct (node_at files p) eqn:Ep; [discriminate |].
  destruct (node_at files (parent p)) as [[] |]; try discriminate.
  intros [= <-]. destruct p as [| c up]; [discriminate |].
  change (files !! (c :: up) = None) in Ep.
  split; [| split].
  - unfold is_dir. cbn. by rewrite lookup_insert_eq.
  - intros q node Hq. rewrite lookup_insert_ne; [done | intros <-; congruence].
  - intros q node. rewrite lookup_insert.
    case_decide; [intros [= <-]; by right | by left].
Qed.

Lemma mkdir_flat_ok exist_ok p files files' :
  mkdir_flat exist_ok p files = Ok files' ->
  is_dir files' p = true /\ extends_with_directories files files'.
Proof.
  unfold mkdir_flat. destruct (os_mkdir p files) as [made | e] eqn:E.
  - intros [= <-]. by apply os_mkdir_ok.
  - destruct (exc_class e); try discriminate;
      destruct exist_ok, (is_dir files p) eqn:Edir; try discriminate;
      intros [= <-]; split; auto using extends_refl.
Qed.

Lemma mkdir_parents_ok exist_ok p files files' :
  mkdir_parents exist_ok p files = Ok files' ->
  is_dir files' p = true /\ extends_with_directories files files'.
Proof.
  revert exist_ok files files'.
  induction p as [| c up IH]; intros exist_ok files files'; cbn [mkdir_parents].
  - unfold os_mkdir. cbn. destruct exist_ok; cbn; [| discriminate].
    intros [= <-]. split; [reflexivity | apply extends_refl].
  - destruct (os_mkdir (c :: up) files) as [made | e] eqn:E.
    + intros [= <-]. by apply os_mkdir_ok.
    + destruct (exc_class e) eqn:Eclass;
        try (destruct exist_ok, (is_dir files (c :: up)) eqn:Edir; try discriminate;
             intros [= <-]; split; auto using extends_refl).
      unfold rbind.
      destruct (mkdir_parents true up files) as [above | e'] eqn:Eup; [| discriminate].
      intros Hflat. apply mkdir_flat_ok in Hflat as [Hdir Hext].
      split; [done |]. apply IH in Eup as [_ Hup]. by eapply extends_trans.
Qed.

(** Adding directories neither writes nor changes nor removes a file. *)
Lemma extends_same_files files files' :
  extends_with_directories files files' ->
  forall q content, files' !! q = Some (File content) <-> files !! q = Some (File content).
Proof.
  intros [Hkeep Hnew] q content. split; [| by auto].
  intros Hq. by destruct (Hnew _ _ Hq).
Qed.

End FileSystem.

(** C10, as the code has it.  [Model.write] on a Model whose solver is ipopt
    first creates the parent directory of the path.  When that succeeds, a
    NotImplementedError is raised; the parent directory then exists, the
    directories just created stay, and no file has been written, changed or
    removed.  When the directory cannot be created, the error of the
    creation is raised instead and nothing has changed. *)
Theorem write_on_ipopt `{Collaborators} (st : State) (file_path : pathlib.Path)
    (pretty : bool) :
  __dict__ st !! "solver_name" = Some (VStr "ipopt") ->
  match pathlib.mkdir_parents true (pathlib.parent file_path) (fs st) with
  | Ok files =>
      Model.write file_path pretty st =
        Raises (Exc NotImplementedError
                  ("IPOPT does not support writing models to "
                   ++ lower (pathlib.suffix file_path) ++ " files. "
                   ++ "Use another solver like Gurobi or HiGHS if you need file export capabilities."))
               (mkState (__dict__ st) (world st) files) /\
      pathlib.is_dir files (pathlib.parent file_path) = true /\
      extends_with_directories (fs st) files /\
      (forall q content,
         files !! q = Some (pathlib.File content) <->
         fs st !! q = Some (pathlib.File content))
  | Err e => Model.write file_path pretty st = Raises e st
  end.
Proof.
  intros Hsolver. unfold Model.write.
  destruct (pathlib.mkdir_parents true (pathlib.parent file_path) (fs st))
    as [files | e] eqn:Emk.
  - apply mkdir_parents_ok in Emk as Hok. destruct Hok as [Hdir Hext].
    split; [| split; [done | split; [done | by apply extends_same_files]]].
    erewrite bind_returns; [| unfold Model.in_fs; by rewrite Emk].
    erewrite bind_returns; [| by apply getattr_some].
    reflexivity.
  - apply bind_raises. unfold Model.in_fs. by rewrite Emk.
Qed.

Lemma write_on_ipopt_witness :
  match pathlib.mkdir_parents true (pathlib.parent ["model.lp"; "run"; "out"]) ∅ with
  | Ok files =>
      Model.write (H := Demo.highs_and_ipopt) ["model.lp"; "run"; "out"] false
                  (Demo.model_state (Some "ipopt") ∅) =
        Raises (Exc NotImplementedError
                  ("IPOPT does not support writing models to "
                   ++ lower (pathlib.suffix ["model.lp"; "run"; "out"]) ++ " files. "
                   ++ "Use another solver like Gurobi or HiGHS if you need file export capabilities."))
               (mkState (H := Demo.highs_and_ipopt)
                  (__dict__ (Demo.model_state (Some "ipopt") ∅))
                  (world (Demo.model_state (Some "ipopt") ∅)) files) /\
      pathlib.is_dir files (pathlib.parent ["model.lp"; "run"; "out"]) = true /\
      extends_with_directories ∅ files /\
      (forall q content,
         files !! q = Some (pathlib.File content) <->
         (∅ : gmap (list string) pathlib.Node) !! q = Some (pathlib.File content))
  | Err e =>
      Model.write (H := Demo.highs_and_ipopt) ["model.lp"; "run"; "out"] false
                  (Demo.model_state (Some "ipopt") ∅) = Raises e (Demo.model_state (Some "ipopt") ∅)
  end.
Proof.
  apply (write_on_ipopt (H := Demo.highs_and_ipopt)
           (Demo.model_state (Some "ipopt") ∅) ["model.lp"; "run"; "out"] false).
  vm_compute. reflexivity.
Defined.

(** The directory is created although the call raises: on an empty file
    system, writing to [/out/run/model.lp] leaves [/out] and [/out/run]
    behind. *)
Example write_on_ipopt_leaves_directories :
  exists e files,
    Model.write (H := Demo.highs_and_ipopt) ["model.lp"; "run"; "out"] false
                (Demo.model_state (Some "ipopt") ∅) =
      Raises e (mkState (H := Demo.highs_and_ipopt)
                  (__dict__ (Demo.model_state (Some "ipopt") ∅))
                  (world (Demo.model_state (Some "ipopt") ∅)) files) /\
    exc_class e = NotImplementedError /\
    files !! ["run"; "out"] = Some pathlib.Dir /\
    files !! ["out"] = Some pathlib.Dir /\
    files !! ["model.lp"; "run"; "out"] = None.
Proof.
  eexists _, _. split; [vm_compute; reflexivity |].
  repeat split; vm_compute; reflexivity.
Qed.

(** C10, as the claim words it, fails: not every call on an ipopt Model
    raises a NotImplementedError.  Where [/out] is a regular file, writing
    to [/out/model.lp] raises the FileExistsError of the directory
    creation. *)
Lemma write_on_ipopt_can_raise_FileExistsError :
  __dict__ (Demo.model_state (Some "ipopt") Demo.out_is_a_file) !! "solver_name"
    = Some (VStr "ipopt") /\
  Model.write (H := Demo.highs_and_ipopt) ["model.lp"; "out"] false
              (Demo.model_state (Some "ipopt") Demo.out_is_a_file) =
    Raises (Exc FileExistsError "File exists")
           (Demo.model_state (Some "ipopt") Demo.out_is_a_file) /\
  exc_class (Exc FileExistsError "File exists") <> NotImplementedError.
Proof.
  split; [vm_compute; reflexivity |]. split; [vm_compute; reflexivity | discriminate].
Qed.

(** ** The theorems at work on a concrete machine *)

Example demo_states :
  __dict__ Demo.m !! "solver_name" = Some (VStr "highs") /\
  __dict__ Demo.m !! "_objective" = Some VNone /\
  __dict__ Demo.minimizing !! "_objective" = Some (VObjective false 7) /\
  __dict__ Demo.minimizing !! "sense" = Some (VObjSense ObjSense.MIN) /\
  __dict__ Demo.maximizing !! "sense" = Some (VObjSense ObjSense.MAX) /\
  __dict__ Demo.with_X !! "X" = Some Demo.X1 /\
  __dict__ Demo.with_X !! "_variables" = Some (VList [Demo.X1]) /\
  world Demo.with_X = ["X"]%list.
Proof. repeat split; vm_compute; reflexivity. Qed.

Lemma setattr_rejects_non_element_witness :
  Model.__setattr__ (H := Demo.highs_and_ipopt) "X" (VInt 3) Demo.m =
    Raises (Exc PyoframeError
              ("Cannot set attribute '" ++ "X" ++
               "' on the model because it isn't of type ModelElement (e.g. Variable, Constraint, ...)"))
           Demo.m /\
  __dict__ (final_state (Model.__setattr__ (H := Demo.highs_and_ipopt) "X" (VInt 3) Demo.m))
    !! "_variables" = __dict__ Demo.m !! "_variables" /\
  __dict__ (final_state (Model.__setattr__ (H := Demo.highs_and_ipopt) "X" (VInt 3) Demo.m))
    !! "_constraints" = __dict__ Demo.m !! "_constraints".
Proof.
  apply (setattr_rejects_non_element (H := Demo.highs_and_ipopt) Demo.m "X" (VInt 3));
    reflexivity.
Defined.

Lemma objective_assignment_witness :
  Model.__setattr__ (H := Demo.highs_and_ipopt) "objective" Demo.expression Demo.minimizing =
    Raises (Exc ValueError "An objective already exists. Use += or -= to modify it.")
           Demo.minimizing /\
  Model.__setattr__ (H := Demo.highs_and_ipopt) "objective" (VObjective true 9) Demo.m =
    Returns tt (mkState (H := Demo.highs_and_ipopt)
                  (<["_objective" := VObjective true 9]> (__dict__ Demo.m))
                  ["objective"]%list (fs Demo.m)) /\
  Model.__setattr__ (H := Demo.highs_and_ipopt) "objective" Demo.expression Demo.m =
    Returns tt (mkState (H := Demo.highs_and_ipopt)
                  (<["_objective" := VObjective false 7]> (__dict__ Demo.m))
                  ["objective"]%list (fs Demo.m)) /\
  Model.__setattr__ (H := Demo.highs_and_ipopt) "objective" (VInt 3) Demo.m =
    Raises (Exc TypeError "cannot convert to an expression") Demo.m /\
  Model.__setattr__ (H := DemoSense.collaborators) "objective" Demo.expression DemoSense.m =
    Raises DemoSense.sense_unset
      (mkState (H := DemoSense.collaborators)
         (<["_objective" := VObjective false 7]> (__dict__ DemoSense.m))
         []%list (fs DemoSense.m)).
Proof.
  split; [| split; [| split; [| split]]].
  - apply (proj1 (objective_assignment (H := Demo.highs_and_ipopt)
                    Demo.minimizing Demo.expression) (VObjective false 7));
      [vm_compute; reflexivity | discriminate | reflexivity].
  - apply (proj1 (proj2 (proj2 (proj2 (objective_assignment (H := Demo.highs_and_ipopt)
                    Demo.m (VObjective true 9)) ltac:(vm_compute; reflexivity))))
             None ["objective"]%list);
      reflexivity.
  - apply (proj2 (proj2 (proj2 (proj2 (proj2 (objective_assignment (H := Demo.highs_and_ipopt)
                    Demo.m Demo.expression) ltac:(vm_compute; reflexivity)))))
             false 7%nat []%list None ["objective"]%list);
      reflexivity.
  - apply (proj1 (proj2 (proj2 (proj2 (proj2 (objective_assignment (H := Demo.highs_and_ipopt)
                    Demo.m (VInt 3)) ltac:(vm_compute; reflexivity)))))
             (Exc TypeError "cannot convert to an expression") []%list);
      reflexivity.
  - apply (proj2 (proj2 (proj2 (proj2 (proj2 (objective_assignment (H := DemoSense.collaborators)
                    DemoSense.m Demo.expression) ltac:(vm_compute; reflexivity)))))
             false 7%nat []%list (Some DemoSense.sense_unset) []%list);
      vm_compute; reflexivity.
Defined.

(** C1, as the claim words it, fails: assigning an objective to a Model
    with no objective need not succeed.  On a Model that has just been
    constructed, whose sense is still unset, [m.objective = expression]
    raises the ValueError of the binding, and it leaves the Objective
    recorded, so that a second assignment is refused as a replacement. *)
Lemma objective_assignment_can_raise :
  __dict__ DemoSense.m !! "_objective" = Some VNone /\
  Model.__setattr__ (H := DemoSense.collaborators) "objective" Demo.expression DemoSense.m =
    Raises DemoSense.sense_unset DemoSense.refused /\
  __dict__ DemoSense.refused !! "_objective" = Some (VObjective false 7) /\
  Model.__setattr__ (H := DemoSense.collaborators) "objective" Demo.expression
    DemoSense.refused =
    Raises (Exc ValueError "An objective already exists. Use += or -= to modify it.")
           DemoSense.refused.
Proof. repeat split; vm_compute; reflexivity. Qed.


(** [m.minimize = expression] on a Model that has just been constructed
    returns also where an Objective needs the sense of the Model to be
    bound: the sense is recorded before the objective is assigned. *)
Example minimize_sets_sense_and_objective :
  Model.__setattr__ (H := DemoSense.collaborators) "minimize" Demo.expression DemoSense.m =
    Returns tt
      (mkState (H := DemoSense.collaborators)
         (<["_objective" := VObjective false 7]>
            (<["sense" := VObjSense ObjSense.MIN]> (__dict__ DemoSense.m)))
         ["objective"]%list (fs DemoSense.m)).
Proof. vm_compute. reflexivity. Qed.

Lemma setattr_rejects_rebinding_witness :
  Model.__setattr__ (H := Demo.highs_and_ipopt) "X" Demo.X2 Demo.with_X =
    Raises (Exc AssertionError ("Cannot create " ++ "X" ++ " since it was already created."))
           Demo.with_X /\
  __dict__ (final_state (Model.__setattr__ (H := Demo.highs_and_ipopt) "X" Demo.X2 Demo.with_X))
    !! "X" = Some Demo.X1.
Proof.
  apply (setattr_rejects_rebinding (H := Demo.highs_and_ipopt)
           Demo.with_X "X" Demo.X1 Demo.X2).
  - repeat split; vm_compute; eauto.
  - reflexivity.
  - vm_compute; reflexivity.
  - reflexivity.
  - reflexivity.
Defined.

Lemma objective_is_None_or_Objective_witness :
  (exists c id,
     __dict__ Demo.minimizing !! "_objective" = Some (VObjective c id) /\
     (isinstance_Objective Demo.expression = true -> Demo.expression = VObjective c id) /\
     (isinstance_Objective Demo.expression = false ->
        exists w, Objective_new (Collaborators := Demo.highs_and_ipopt) Demo.expression
                    (world (mkState (H := Demo.highs_and_ipopt)
                              (<["sense" := VObjSense ObjSense.MIN]> (__dict__ Demo.m))
                              (world Demo.m) (fs Demo.m)))
                  = (Ok (c, id), w))) /\
  (exists v, Model.objective (H := Demo.highs_and_ipopt) Demo.with_X = Returns v Demo.with_X /\
             None_or_Objective v).
Proof.
  split.
  - apply (proj1 (objective_is_None_or_Objective (H := Demo.highs_and_ipopt))
             (mkState (H := Demo.highs_and_ipopt)
                (<["sense" := VObjSense ObjSense.MIN]> (__dict__ Demo.m))
                (world Demo.m) (fs Demo.m))
             Demo.expression Demo.minimizing).
    vm_compute. reflexivity.
  - apply (proj2 (objective_is_None_or_Objective (H := Demo.highs_and_ipopt)) Demo.with_X).
    apply (reachable_setattr (H := Demo.highs_and_ipopt) Demo.m "X" Demo.X1);
      [| discriminate].
    apply (reachable_new (H := Demo.highs_and_ipopt) Config.at_import VNone None None
             (VBool false) VNone []%list ∅ Demo.m).
    vm_compute. reflexivity.
Defined.

Lemma constant_term_variable_witness :
  (exists model,
     __dict__ Demo.m !! "poi" = Some (VPoi model) /\
     has_constant_term (H := Demo.highs_and_ipopt) model /\
     poi.mkVariableIndex 0 1 1 "ONE" ∈ poi.variables model /\
     __dict__ Demo.m !! "_variables" = Some (VList [])) /\
  Model.new (H := Demo.one_based) Config.at_import VNone (Some "HiGHS") None
    (VBool false) VNone []%list ∅ =
    Raises (Exc ValueError "The first variable should have index 0.")
           (mkState (H := Demo.one_based) ∅ []%list ∅) /\
  (exists e,
     Model.new (H := Demo.one_based) Config.at_import VNone None None
       (VBool false) VNone []%list ∅ =
       Raises e (mkState (H := Demo.one_based) ∅ []%list ∅)).
Proof.
  split; [| split].
  - apply (proj1 (proj2 (constant_term_variable (H := Demo.highs_and_ipopt)
                           Config.at_import VNone None None (VBool false) VNone []%list ∅))
             Demo.m).
    vm_compute. reflexivity.
  - apply (proj1 (proj2 (proj2 (constant_term_variable (H := Demo.one_based)
                           Config.at_import VNone (Some "HiGHS") None (VBool false)
                           VNone []%list ∅)))
             "HiGHS" (poi.mkModel "highs" [])).
    + reflexivity.
    + vm_compute. reflexivity.
    + vm_compute. discriminate.
  - apply (proj2 (proj2 (proj2 (constant_term_variable (H := Demo.one_based)
                           Config.at_import VNone None None (VBool false)
                           VNone []%list ∅)))).
    intros model. cbn. lia.
Defined.

(** Under a reserved name nothing is attached: [m.name = X1] only stores
    the value, so the names that hold attached elements are the ones that
    are not reserved. *)
Example reserved_name_is_not_an_attachment :
  Model.is_reserved "name" = true /\
  Model.__setattr__ (H := Demo.highs_and_ipopt) "name" Demo.X1 Demo.m =
    Returns tt (mkState (H := Demo.highs_and_ipopt)
                  (<["name" := Demo.X1]> (__dict__ Demo.m)) (world Demo.m) (fs Demo.m)) /\
  __dict__ (final_state (Model.__setattr__ (H := Demo.highs_and_ipopt) "name" Demo.X1 Demo.m))
    !! "_variables" = Some (VList []).
Proof. repeat split; vm_compute; reflexivity. Qed.

(** * Further properties *)

(** ** constants.py *)

(** X1. The translations to the adapter's vocabulary lose nothing: two
    members of ConstraintSense, of ObjSense or of VType that [to_poi] sends
    to the same adapter value are the same member. *)
Theorem to_poi_injective :
  (forall a b, ConstraintSense.to_poi a = ConstraintSense.to_poi b -> a = b) /\
  (forall a b, ObjSense.to_poi a = ObjSense.to_poi b -> a = b) /\
  (forall a b, VType.to_poi a = VType.to_poi b -> a = b).
Proof.
  repeat split; intros [] []; vm_compute; congruence.
Qed.

Lemma to_poi_injective_witness :
  ConstraintSense.LE = ConstraintSense.LE /\ ObjSense.MAX = ObjSense.MAX /\
  VType.BINARY = VType.BINARY.
Proof.
  pose proof to_poi_injective as (Hc & Ho & Hv).
  split; [apply Hc | split; [apply Ho | apply Hv]]; reflexivity.
Defined.

(** X2. [ObjSense(value)] inverts [member.value]; the strings it accepts
    are exactly those of the Literal type ObjSenseValue, any other string
    raises a ValueError; and the assertions that compare the Literal types
    with the values of ObjSense and VType pass when the module is
    imported. *)
Theorem ObjSense_lookup_by_value :
  (forall member, ObjSense.of_value (EnumValues.ObjSense_value member) = Ok member) /\
  (forall value member,
     ObjSense.of_value value = Ok member -> EnumValues.ObjSense_value member = value) /\
  (forall value,
     value ∈ EnumValues.ObjSenseValue <-> exists member, ObjSense.of_value value = Ok member) /\
  (forall value,
     value ∉ EnumValues.ObjSenseValue ->
     exists e, ObjSense.of_value value = Err e /\ exc_class e = ValueError) /\
  EnumValues.module_assertions = Ok tt.
Proof.
  assert (Hinv : forall value member,
            ObjSense.of_value value = Ok member -> EnumValues.ObjSense_value member = value).
  { intros value member. unfold ObjSense.of_value.
    destruct (String.eqb value "min") eqn:Emin.
    - apply String.eqb_eq in Emin. by intros [= <-].
    - destruct (String.eqb value "max") eqn:Emax; [| discriminate].
      apply String.eqb_eq in Emax. by intros [= <-]. }
  split; [by intros [] |]. split; [exact Hinv |].
  assert (Hiff : forall value,
            value ∈ EnumValues.ObjSenseValue <->
            exists member, ObjSense.of_value value = Ok member).
  { intros value. split.
    - unfold EnumValues.ObjSenseValue. rewrite !elem_of_cons, elem_of_nil.
      intros [-> | [-> | []]]; eexists; reflexivity.
    - intros [member Hm]. apply Hinv in Hm as <-.
      destruct member; unfold EnumValues.ObjSenseValue; cbn;
        rewrite !elem_of_cons; auto. }
  split; [exact Hiff |]. split; [| by vm_compute].
  intros value Hout. destruct (ObjSense.of_value value) as [member | e] eqn:E.
  - destruct Hout. apply Hiff. eauto.
  - exists e. split; [done |]. revert E. unfold ObjSense.of_value.
    repeat (destruct (String.eqb value _); [discriminate |]). by intros [= <-].
Qed.

Lemma ObjSense_lookup_by_value_witness :
  EnumValues.ObjSense_value ObjSense.MAX = "max" /\
  exists e, ObjSense.of_value "maximise" = Err e /\ exc_class e = ValueError.
Proof.
  pose proof ObjSense_lookup_by_value as (_ & Hinv & _ & Hout & _).
  split.
  - apply (Hinv "max" ObjSense.MAX). reflexivity.
  - apply (Hout "maximise"). unfold EnumValues.ObjSenseValue.
    rewrite !elem_of_cons, elem_of_nil. intros [H | [H | []]]; discriminate H.
Defined.

Section ConfigFurther.

Implicit Types (cls : gmap string Value) (items dct : list (string * Value)).

(** Once a key has been assigned from the dictionary, what the class held
    before no longer matters. *)
Lemma setattr_items_forget items cls1 cls2 k :
  k ∈ items.*1 ->
  fold_left (fun c kv => Config.setattr kv.1 kv.2 c) items cls1 !! k =
  fold_left (fun c kv => Config.setattr kv.1 kv.2 c) items cls2 !! k.
Proof.
  revert cls1 cls2. induction items as [| [k' v'] items IH]; intros cls1 cls2 Hk.
  - by apply elem_of_nil in Hk.
  - cbn in *. destruct (decide (k ∈ items.*1)) as [Hin | Hout]; [by apply IH |].
    apply elem_of_cons in Hk as [-> | Hin]; [| done].
    rewrite !setattr_items_other by done.
    unfold Config.setattr. by rewrite !lookup_insert_eq.
Qed.

End ConfigFurther.

(** X3. [Config.reset_defaults] assigns every item of [_defaults] and
    nothing else: an attribute that [_defaults] does not name, such as one
    that user code added to the class, keeps its value, and every key of
    [_defaults] ends with the value stored for it.  When [_defaults] itself
    is missing the call raises an AttributeError. *)
Theorem reset_defaults_contract (cls : gmap string Value) :
  (forall items,
     cls !! "_defaults" = Some (VDict items) ->
     exists cls',
       Config.reset_defaults cls = Ok cls' /\
       (forall k, k ∉ items.*1 -> cls' !! k = cls !! k) /\
       (NoDup items.*1 -> forall k v, (k, v) ∈ items -> cls' !! k = Some v)) /\
  (cls !! "_defaults" = None ->
     exists e, Config.reset_defaults cls = Err e /\ exc_class e = AttributeError).
Proof.
  split.
  - intros items Hd. unfold Config.reset_defaults. rewrite Hd.
    eexists. split; [reflexivity |]. split.
    + intros k Hk. by apply setattr_items_other.
    + intros Hnd k v Hin. by apply setattr_items_key.
  - intros Hd. unfold Config.reset_defaults. rewrite Hd. eauto.
Qed.

Lemma reset_defaults_contract_witness :
  (exists cls',
     Config.reset_defaults (Config.setattr "colour" (VStr "red") Config.at_import) = Ok cls' /\
     (forall k, k ∉ documented_defaults.*1 ->
        cls' !! k = Config.setattr "colour" (VStr "red") Config.at_import !! k) /\
     (NoDup documented_defaults.*1 ->
      forall k v, (k, v) ∈ documented_defaults -> cls' !! k = Some v)) /\
  (exists e, Config.reset_defaults (delete "_defaults" Config.at_import) = Err e /\
             exc_class e = AttributeError).
Proof.
  split.
  - apply (proj1 (reset_defaults_contract
                    (Config.setattr "colour" (VStr "red") Config.at_import))
             documented_defaults).
    vm_compute. reflexivity.
  - apply (proj2 (reset_defaults_contract (delete "_defaults" Config.at_import))).
    vm_compute. reflexivity.
Defined.

(** X4. [Config.reset_defaults] is idempotent: when [_defaults] does not
    list itself (the metaclass never collects a name that starts with an
    underscore), resetting a class that has just been reset changes
    nothing. *)
Theorem reset_defaults_idempotent (cls cls' : gmap string Value)
    (items : list (string * Value)) :
  cls !! "_defaults" = Some (VDict items) ->
  "_defaults" ∉ items.*1 ->
  Config.reset_defaults cls = Ok cls' ->
  Config.reset_defaults cls' = Ok cls'.
Proof.
  intros Hd Hself. unfold Config.reset_defaults at 1. rewrite Hd. intros [= <-].
  unfold Config.reset_defaults. rewrite setattr_items_other, Hd by done.
  f_equal. apply map_eq. intros k.
  destruct (decide (k ∈ items.*1)) as [Hin | Hout].
  - by apply setattr_items_forget.
  - by rewrite setattr_items_other.
Qed.

Lemma reset_defaults_idempotent_witness :
  Config.reset_defaults Config.at_import = Ok Config.at_import.
Proof.
  apply (reset_defaults_idempotent
           (Config.setattr "print_max_lines" (VInt 3) Config.at_import)
           Config.at_import documented_defaults).
  - vm_compute. reflexivity.
  - apply (bool_decide_unpack _). vm_compute. exact I.
  - vm_compute. reflexivity.
Defined.

(** ** model.py: choosing the solver *)

Section SolverNames.
Context `{Collaborators}.

Lemma lower_ascii_idempotent c : lower_ascii (lower_ascii c) = lower_ascii c.
Proof. destruct c as [[] [] [] [] [] [] [] []]; reflexivity. Qed.

Lemma lower_idempotent s : lower (lower s) = lower s.
Proof. induction s as [| c s IH]; cbn; [done |]. by rewrite lower_ascii_idempotent, IH. Qed.

(** An adapter is made only for one of the three names. *)
Lemma adapter_model_supported solver solver_env model :
  Model.adapter_model solver solver_env = Ok model -> solver ∈ SUPPORTED_SOLVERS.
Proof.
  unfold Model.adapter_model, SUPPORTED_SOLVERS.
  repeat lazymatch goal with
  | |- context [String.eqb solver ?s] =>
      let E := fresh "E" in
      destruct (String.eqb solver s) eqn:E;
        [apply String.eqb_eq in E; subst solver; intros _; rewrite !elem_of_cons; auto |]
  end.
  discriminate.
Qed.

Lemma named_solver_name solver solver_env model solver_name :
  Model.create_poi_model_named solver solver_env = Ok (model, solver_name) ->
  solver_name = lower solver /\ solver_name ∈ SUPPORTED_SOLVERS.
Proof.
  unfold Model.create_poi_model_named, mbind, Result_bind, rbind.
  destruct (Model.adapter_model (lower solver) solver_env) as [fresh | e] eqn:E;
    [| discriminate].
  apply adapter_model_supported in E.
  destruct (Model.add_variable fresh 1 1 "ONE") as [m v].
  destruct (negb _); [discriminate |]. by intros [= _ <-].
Qed.

Lemma detect_solver_name options solver_env model solver_name :
  Model.detect_solver options solver_env = Ok (model, solver_name) ->
  solver_name ∈ SUPPORTED_SOLVERS.
Proof.
  induction options as [| solver_option rest IH]; cbn; [discriminate |].
  destruct (Model.create_poi_model_named solver_option solver_env) as [[m s] | e] eqn:E.
  - intros [= <- <-]. by apply named_solver_name in E as [_ ?].
  - destruct (issubclass_RuntimeError (exc_class e)); [done | discriminate].
Qed.

End SolverNames.

(** X6. Solver names are case-insensitive and are stored in lower case:
    creating the adapter for [solver] and for [solver.lower()] is the same
    call, and the name that [create_poi_model] returns, which a constructed
    Model keeps under [solver_name], is always one of gurobi, highs and
    ipopt in lower case (the lower-cased argument when a solver was
    named). *)
Theorem solver_name_normalised `{Collaborators} (Config : gmap string Value)
    (solver : option string) (solver_env : option (list (string * string))) :
  (forall s,
     Model.create_poi_model Config (Some s) solver_env =
     Model.create_poi_model Config (Some (lower s)) solver_env) /\
  (forall model solver_name,
     Model.create_poi_model Config solver solver_env = Ok (model, solver_name) ->
     solver_name ∈ SUPPORTED_SOLVERS /\
     lower solver_name = solver_name /\
     (forall s, solver = Some s -> solver_name = lower s)) /\
  (forall name use_var_names sense w files st,
     Model.new Config name solver solver_env use_var_names sense w files = Returns tt st ->
     exists solver_name,
       __dict__ st !! "solver_name" = Some (VStr solver_name) /\
       solver_name ∈ SUPPORTED_SOLVERS).
Proof.
  assert (Hsupported : forall model solver_name,
            Model.create_poi_model Config solver solver_env = Ok (model, solver_name) ->
            solver_name ∈ SUPPORTED_SOLVERS /\
            (forall s, solver = Some s -> solver_name = lower s)).
  { intros model solver_name. unfold Model.create_poi_model.
    destruct solver as [s |].
    - intros [-> Hin]%named_solver_name. split; [done |]. by intros ? [= ->].
    - destruct (Config !! "default_solver") as [[] |]; try discriminate.
      + intros Hin%detect_solver_name. by split.
      + intros [-> Hin]%named_solver_name. by split. }
  split; [| split].
  - intros s. cbn. unfold Model.create_poi_model_named. by rewrite lower_idempotent.
  - intros model solver_name Hcreate.
    destruct (Hsupported _ _ Hcreate) as [Hin Hnamed]. split; [done |]. split; [| done].
    revert Hin. unfold SUPPORTED_SOLVERS. rewrite !elem_of_cons, elem_of_nil.
    intros [-> | [-> | [-> | []]]]; reflexivity.
  - intros name use_var_names sense w files st Hnew.
    apply new_returns in Hnew as (model & solver_name & sense' & vm & Hcreate & Hdict).
    exists solver_name. rewrite Hdict. split; [by simplify_map_eq |].
    by destruct (Hsupported _ _ Hcreate).
Qed.

Lemma solver_name_normalised_witness :
  exists solver_name,
    __dict__ (Demo.model_state (Some "IPOPT") ∅) !! "solver_name" = Some (VStr solver_name) /\
    solver_name ∈ SUPPORTED_SOLVERS.
Proof.
  apply (proj2 (proj2 (solver_name_normalised (H := Demo.highs_and_ipopt)
                         Config.at_import (Some "IPOPT") None))
           VNone (VBool false) VNone []%list ∅ (Demo.model_state (Some "IPOPT") ∅)).
  vm_compute. reflexivity.
Defined.

(** X7. A solver name that is none of gurobi, highs and ipopt (whatever its
    case) is rejected with a ValueError, whatever solvers are installed, and
    the construction of the Model raises that error before any attribute is
    set.  For an ASCII name the message names the solver in lower case. *)
Theorem unknown_solver_rejected `{Collaborators} (Config : gmap string Value)
    (solver : string) (solver_env : option (list (string * string))) :
  lower solver ∉ SUPPORTED_SOLVERS ->
  exists e,
    exc_class e = ValueError /\
    (isascii solver = true ->
     exc_msg e = "Solver " ++ lower solver ++ " not recognized or supported.") /\
    Model.create_poi_model Config (Some solver) solver_env = Err e /\
    (forall name use_var_names sense w files,
       Model.new Config name (Some solver) solver_env use_var_names sense w files =
         Raises e (mkState ∅ w files)).
Proof.
  intros Hout.
  assert (Hcreate : Model.create_poi_model Config (Some solver) solver_env =
    Err (Exc ValueError ("Solver " ++ lower solver ++ " not recognized or supported."))).
  { cbn. unfold Model.create_poi_model_named, Model.adapter_model.
    revert Hout. unfold SUPPORTED_SOLVERS. rewrite !elem_of_cons, elem_of_nil.
    intros Hout.
    repeat lazymatch goal with
    | |- context [String.eqb (lower solver) ?s] =>
        let E := fresh "E" in
        destruct (String.eqb (lower solver) s) eqn:E;
          [apply String.eqb_eq in E; destruct Hout; auto |]
    end.
    reflexivity. }
  eexists. split; [| split; [| split; [exact Hcreate |]]]; [done | done |].
  intros name use_var_names sense w files.
  unfold Model.new, Model.__init__. by rewrite Hcreate.
Qed.

Lemma unknown_solver_rejected_witness :
  exists e,
    exc_class e = ValueError /\
    (isascii "CPLEX" = true ->
     exc_msg e = "Solver " ++ lower "CPLEX" ++ " not recognized or supported.") /\
    Model.create_poi_model (H := Demo.highs_and_ipopt) Config.at_import (Some "CPLEX") None =
      Err e /\
    (forall name use_var_names sense w files,
       Model.new (H := Demo.highs_and_ipopt) Config.at_import name (Some "CPLEX") None
         use_var_names sense w files =
         Raises e (mkState (H := Demo.highs_and_ipopt) ∅ w files)).
Proof.
  apply (unknown_solver_rejected (H := Demo.highs_and_ipopt) Config.at_import "CPLEX" None).
  apply (bool_decide_unpack _). vm_compute. exact I.
Defined.

(** X8. [solver_env] matters to Gurobi only: for any other solver name the
    result of [create_poi_model] is the same with and without it. *)
Theorem solver_env_is_gurobi_only `{Collaborators} (Config : gmap string Value)
    (solver : string) (solver_env : option (list (string * string))) :
  lower solver <> "gurobi" ->
  Model.create_poi_model Config (Some solver) solver_env =
  Model.create_poi_model Config (Some solver) None.
Proof.
  intros Hother. cbn. unfold Model.create_poi_model_named, Model.adapter_model.
  apply String.eqb_neq in Hother. by rewrite Hother.
Qed.

Lemma solver_env_is_gurobi_only_witness :
  Model.create_poi_model (H := Demo.highs_and_ipopt) Config.at_import (Some "HiGHS")
    (Some [("ComputeServer", "myserver")]) =
  Model.create_poi_model (H := Demo.highs_and_ipopt) Config.at_import (Some "HiGHS") None.
Proof.
  apply (solver_env_is_gurobi_only (H := Demo.highs_and_ipopt) Config.at_import "HiGHS").
  vm_compute. discriminate.
Defined.

(** ** model.py: construction *)

Section InitSense.
Context `{Collaborators}.

(** What [__init__] stores under [sense]. *)
Lemma new_sense Config (name : Value) solver solver_env (use_var_names sense : Value)
    w files st :
  Model.new Config name solver solver_env use_var_names sense w files = Returns tt st ->
  exists stored,
    __dict__ st !! "sense" = Some stored /\
    (if is_None sense then stored = VNone else Model.ObjSense_call sense = Ok stored).
Proof.
  unfold Model.new, Model.__init__. intros Hrun.
  apply bind_returns_inv in Hrun as ([model solver_name] & st1 & Hcreate & Hrun).
  unfold lift in Hcreate.
  destruct (Model.create_poi_model Config solver solver_env) as [created | e];
    [| discriminate].
  injection Hcreate as -> <-.
  repeat (apply bind_returns_inv in Hrun as ([] & ? & Hstep & Hrun);
          rewrite setattr_plain in Hstep by reflexivity;
          injection Hstep as <-; cbn [__dict__ world fs] in Hrun).
  apply bind_returns_inv in Hrun as (stored & st2 & Hsense & Hrun).
  assert (st2 = mkState
            (<["_constraints" := VList []]>
             (<["_variables" := VList []]>
              (<["solver_name" := VStr solver_name]>
               (<["poi" := VPoi model]> ∅)))) w files /\
          (if is_None sense then stored = VNone else Model.ObjSense_call sense = Ok stored))
    as [-> Hstored].
  { destruct (is_None sense); cbn [negb] in Hsense; [by injection Hsense as <- <- |].
    unfold lift in Hsense. destruct (Model.ObjSense_call sense); [| discriminate].
    by injection Hsense as <- <-. }
  exists stored. split; [| done]. clear Hstored.
  repeat (apply bind_returns_inv in Hrun as ([] & ? & Hstep & Hrun);
          rewrite setattr_plain in Hstep by reflexivity;
          injection Hstep as <-; cbn [__dict__ world fs] in Hrun).
  apply bind_returns_inv in Hrun as (flag & st3 & Hflag & Hrun).
  unfold lift in Hflag.
  destruct (Config !! "print_uses_variable_names"); [| discriminate].
  injection Hflag as _ <-.
  apply bind_returns_inv in Hrun as (var_map & st4 & Hmap & Hrun).
  assert (__dict__ st4 !! "sense" = Some stored) as Hdict.
  { destruct (truthy flag).
    - unfold Model.NamedVariableMapper in Hmap. cbn in Hmap.
      destruct (NamedVariableMapper_new w). injection Hmap as _ <-. by simplify_map_eq.
    - injection Hmap as _ <-. by simplify_map_eq. }
  repeat (apply bind_returns_inv in Hrun as ([] & ? & Hstep & Hrun);
          rewrite setattr_plain in Hstep by reflexivity;
          injection Hstep as <-; cbn [__dict__ world fs] in Hrun).
  rewrite setattr_plain in Hrun by reflexivity. injection Hrun as <-.
  cbn [__dict__]. by simplify_map_eq.
Qed.

End InitSense.

(** X9. The [sense] argument of the constructor: None leaves the sense
    unset, a member of ObjSense is stored as it is, and a string is stored
    as the member that has it for value.  A string that is not such a value
    makes the construction raise a ValueError; by then the adapter model
    has been created and stored, while [sense] has not been set. *)
Theorem constructor_sense `{Collaborators} (Config : gmap string Value) (name : Value)
    (solver : option string) (solver_env : option (list (string * string)))
    (use_var_names sense : Value) (w : World) (files : gmap (list string) pathlib.Node) :
  (forall st,
     Model.new Config name solver solver_env use_var_names sense w files = Returns tt st ->
     exists stored,
       __dict__ st !! "sense" = Some stored /\
       (sense = VNone -> stored = VNone) /\
       (forall member, sense = VObjSense member -> stored = VObjSense member) /\
       (forall value, sense = VStr value ->
          exists member,
            EnumValues.ObjSense_value member = value /\ stored = VObjSense member)) /\
  (forall value model solver_name,
     sense = VStr value ->
     value ∉ EnumValues.ObjSenseValue ->
     Model.create_poi_model Config solver solver_env = Ok (model, solver_name) ->
     exists e st,
       Model.new Config name solver solver_env use_var_names sense w files = Raises e st /\
       exc_class e = ValueError /\
       __dict__ st !! "poi" = Some (VPoi model) /\
       __dict__ st !! "sense" = None).
Proof.
  split.
  - intros st Hnew. apply new_sense in Hnew as (stored & Hdict & Hstored).
    exists stored. split; [done |]. split; [| split].
    + by intros ->.
    + intros member ->. cbn in Hstored. congruence.
    + intros value ->. cbn in Hstored.
      unfold mbind, Result_bind, rbind, ObjSense.of_value in Hstored.
      destruct (String.eqb value "min") eqn:Emin.
      { apply String.eqb_eq in Emin as ->. exists ObjSense.MIN. split; [done | congruence]. }
      destruct (String.eqb value "max") eqn:Emax; [| discriminate].
      apply String.eqb_eq in Emax as ->. exists ObjSense.MAX. split; [done | congruence].
  - intros value model solver_name -> Hout Hcreate.
    assert (exists e, Model.ObjSense_call (VStr value) = Err e /\ exc_class e = ValueError)
      as (e & Hcall & Hclass).
    { revert Hout. unfold EnumValues.ObjSenseValue. rewrite !elem_of_cons, elem_of_nil.
      intros Hout. cbn. unfold mbind, Result_bind, rbind, ObjSense.of_value.
      destruct (String.eqb value "min") eqn:Emin.
      { apply String.eqb_eq in Emin. destruct Hout; auto. }
      destruct (String.eqb value "max") eqn:Emax.
      { apply String.eqb_eq in Emax. destruct Hout; auto. }
      eauto. }
    exists e. eexists. split; [| split; [done |]].
    + unfold Model.new, Model.__init__. rewrite Hcreate.
      erewrite bind_returns; [| reflexivity].
      do 4 (erewrite bind_returns; [| apply setattr_plain; reflexivity]).
      apply bind_raises. cbn [is_None negb]. unfold lift. rewrite Hcall. reflexivity.
    + cbn. split; by simplify_map_eq.
Qed.

Lemma constructor_sense_witness :
  (exists stored,
     __dict__ (final_state
                 (Model.new (H := Demo.highs_and_ipopt) Config.at_import VNone None None
                    (VBool false) (VStr "max") []%list ∅)) !! "sense" = Some stored /\
     (VStr "max" = VNone -> stored = VNone) /\
     (forall member, VStr "max" = VObjSense member -> stored = VObjSense member) /\
     (forall value, VStr "max" = VStr value ->
        exists member,
          EnumValues.ObjSense_value member = value /\ stored = VObjSense member)) /\
  (exists e st,
     Model.new (H := Demo.highs_and_ipopt) Config.at_import VNone None None
       (VBool false) (VStr "maximum") []%list ∅ = Raises e st /\
     exc_class e = ValueError /\
     __dict__ st !! "poi"
       = Some (VPoi (poi.mkModel "highs" [poi.mkVariableIndex 0 1 1 "ONE"])) /\
     __dict__ st !! "sense" = None).
Proof.
  split.
  - apply (proj1 (constructor_sense (H := Demo.highs_and_ipopt) Config.at_import VNone
                    None None (VBool false) (VStr "max") []%list ∅)).
    vm_compute. reflexivity.
  - apply (proj2 (constructor_sense (H := Demo.highs_and_ipopt) Config.at_import VNone
                    None None (VBool false) (VStr "maximum") []%list ∅)
             "maximum" (poi.mkModel "highs" [poi.mkVariableIndex 0 1 1 "ONE"]) "highs").
    + reflexivity.
    + unfold EnumValues.ObjSenseValue. rewrite !elem_of_cons, elem_of_nil.
      intros [E | [E | []]]; discriminate E.
    + vm_compute. reflexivity.
Defined.

(** ** model.py: attaching elements *)

Section Attaching.
Context `{Collaborators}.

Implicit Types (st : State) (value : Value) (name : string).

Lemma reads_getattr name : reads (getattr name).
Proof. intros st. unfold getattr. destruct (__dict__ st !! name); eauto. Qed.

Lemma reads_raise {A} e : reads (raise e : M A).
Proof. intros st. right. by exists e. Qed.

Lemma reads_ret {A} (a : A) : reads (mret a : M A).
Proof. intros st. left. by exists a. Qed.

Lemma reads_bind {A B} (m : M A) (k : A -> M B) :
  reads m -> (forall a, reads (k a)) -> reads (m ≫= k).
Proof.
  intros Hm Hk st. unfold mbind, M_bind.
  destruct (Hm st) as [[a ->] | [e ->]]; [apply Hk | right; by exists e].
Qed.

Lemma reads_property_getter name getter :
  Model.property_getter name = Some getter -> reads getter.
Proof.
  unfold Model.property_getter.
  repeat (destruct (String.eqb name _);
          [intros [= <-];
           first [ apply reads_getattr
                 | apply reads_bind; [apply reads_getattr |]; intros;
                   first [apply reads_ret | destruct (negb _);
                                            [apply reads_raise | apply reads_getattr]] ] |]).
  discriminate.
Qed.

Lemma reads_hasattr name : reads (Model.hasattr name).
Proof.
  intros st. unfold Model.hasattr.
  destruct (Model.property_getter name) as [getter |] eqn:E; [| eauto].
  destruct (reads_property_getter _ _ E st) as [[v ->] | [e ->]]; [eauto |].
  destruct (exc_class e); eauto.
Qed.

Lemma hasattr_free name st : free_name st name -> Model.hasattr name st = Returns false st.
Proof.
  intros (Hget & Hdict & Hclass & Hobject). unfold Model.hasattr.
  rewrite Hget, Hdict, Hobject. by rewrite bool_decide_eq_false_2.
Qed.

Lemma nonreserved_no_setter name :
  Model.is_reserved name = false -> Model.property_setter name = None.
Proof.
  intros Hres. unfold Model.property_setter.
  repeat lazymatch goal with
  | |- context [String.eqb name ?s] =>
      let E := fresh "E" in
      destruct (String.eqb name s) eqn:E;
        [apply String.eqb_eq in E; subst name; discriminate Hres |]
  end.
  reflexivity.
Qed.

Lemma super_setattr_stores name value st :
  Model.is_reserved name = false ->
  Model.property_getter name = None ->
  Model.super__setattr__ name value st =
    Returns tt (mkState (<[name := value]> (__dict__ st)) (world st) (fs st)).
Proof.
  intros Hres Hget. unfold Model.super__setattr__.
  by rewrite (nonreserved_no_setter _ Hres), Hget.
Qed.

Lemma super_setattr_read_only name value st :
  name ∈ read_only_properties ->
  Model.super__setattr__ name value st =
    Raises (Exc AttributeError ("property '" ++ name ++ "' of 'Model' object has no setter")) st.
Proof.
  unfold read_only_properties. rewrite !elem_of_cons, elem_of_nil.
  intros [-> | [-> | [-> | [-> | [-> | []]]]]]; reflexivity.
Qed.

Lemma read_only_not_reserved name :
  name ∈ read_only_properties -> Model.is_reserved name = false.
Proof.
  unfold read_only_properties. rewrite !elem_of_cons, elem_of_nil.
  intros [-> | [-> | [-> | [-> | [-> | []]]]]]; reflexivity.
Qed.

Lemma dataframe_is_no_element value :
  isinstance_DataFrame value = true ->
  isinstance_ModelElement value = false.
Proof. destruct value as [| | | | | | | | | | [] | | | |]; cbn; congruence. Qed.

Lemma without_id_is_neither value :
  isinstance_ModelElementWithId value = false ->
  isinstance_Variable value = false /\ isinstance_Constraint value = false.
Proof. destruct value as [| | | | | | | | | | [] | | | |]; cbn; auto; discriminate. Qed.


Lemma constraint_has_id value :
  isinstance_Constraint value = true ->
  isinstance_ModelElementWithId value = true /\ isinstance_ModelElement value = true /\
  isinstance_Variable value = false.
Proof. destruct value as [| | | | | | | | | | [] | | | |]; cbn; auto; discriminate. Qed.

Lemma bind_element_returns value name st w :
  on_add_to_model value (__dict__ st) name (world st) = (None, w) ->
  Model.bind_element value name st = Returns tt (mkState (__dict__ st) w (fs st)).
Proof. intros Hbind. unfold Model.bind_element, in_world. by rewrite Hbind. Qed.

End Attaching.



(** X11. Attaching a Constraint under a free name: when the binding
    returns, the assignment returns; the Constraint is then stored under
    the name and is the last of the Model's constraints, after the ones
    there were. *)
Theorem attach_constraint `{Collaborators} (st : State) (name : string)
    (value : Value) (bound : list Value) (w : World) :
  Model.is_reserved name = false ->
  free_name st name ->
  isinstance_Constraint value = true ->
  __dict__ st !! "_constraints" = Some (VList bound) ->
  on_add_to_model value (__dict__ st) name (world st) = (None, w) ->
  exists st',
    Model.__setattr__ name value st = Returns tt st' /\
    __dict__ st' !! name = Some value /\
    __dict__ st' !! "_constraints" = Some (VList (bound ++ [value])).
Proof.
  intros Hres Hfree Hcon Hbound Hbind.
  assert (Hname : name <> "_constraints").
  { intros ->. destruct Hfree as (_ & Hnone & _). congruence. }
  destruct (constraint_has_id _ Hcon) as (Hid & Helem & Hvar).
  unfold Model.__setattr__. rewrite Hres, Helem, Hid, Hvar, Hcon. cbn [negb andb orb when].
  unfold mbind, M_bind. rewrite (hasattr_free _ _ Hfree). cbn [when mret M_ret].
  rewrite (bind_element_returns _ _ _ _ Hbind).
  unfold append, mbind, M_bind, getattr, store. cbn [__dict__ world fs].
  rewrite Hbound. cbn [__dict__ world fs]. destruct Hfree as (Hget & _).
  rewrite super_setattr_stores by done.
  eexists. split; [reflexivity |]. cbn [__dict__ world fs].
  by rewrite lookup_insert_eq, lookup_insert_ne, lookup_insert_eq.
Qed.

Lemma attach_constraint_witness :
  exists st',
    Model.__setattr__ (H := Demo.highs_and_ipopt) "limit" (VInstance cls_Constraint 4)
      Demo.with_X = Returns tt st' /\
    __dict__ st' !! "limit" = Some (VInstance cls_Constraint 4) /\
    __dict__ st' !! "_constraints" = Some (VList ([] ++ [VInstance cls_Constraint 4])).
Proof.
  apply (attach_constraint (H := Demo.highs_and_ipopt) Demo.with_X "limit"
           (VInstance cls_Constraint 4) [] ["X"; "limit"]%list).
  - reflexivity.
  - repeat split; try (vm_compute; reflexivity).
    apply (bool_decide_unpack _). vm_compute. exact I.
  - reflexivity.
  - vm_compute. reflexivity.
  - vm_compute. reflexivity.
Defined.





(** X15. The read-only properties of Model ([variables], [constraints],
    [binary_variables], [integer_variables], [use_var_names]) cannot be
    assigned.  A dataframe raises an AttributeError and changes nothing.  An
    element without IDs raises the same AttributeError, but only after it
    has been bound: what the binding did to the world stays. *)
Theorem read_only_properties_refuse `{Collaborators} (st : State) (name : string)
    (value : Value) :
  name ∈ read_only_properties ->
  (isinstance_DataFrame value = true ->
   Model.__setattr__ name value st =
     Raises (Exc AttributeError ("property '" ++ name ++ "' of 'Model' object has no setter"))
            st) /\
  (forall w,
     isinstance_ModelElement value = true ->
     isinstance_ModelElementWithId value = false ->
     on_add_to_model value (__dict__ st) name (world st) = (None, w) ->
     Model.__setattr__ name value st =
       Raises (Exc AttributeError ("property '" ++ name ++ "' of 'Model' object has no setter"))
              (mkState (__dict__ st) w (fs st))).
Proof.
  intros Hname. pose proof (read_only_not_reserved _ Hname) as Hres. split.
  - intros Hdf. unfold Model.__setattr__.
    rewrite Hres, Hdf, (dataframe_is_no_element _ Hdf). cbn [negb andb orb when].
    rewrite (bind_returns _ _ _ tt st) by reflexivity.
    by apply super_setattr_read_only.
  - intros w Helem Hid Hbind.
    destruct (without_id_is_neither _ Hid) as [Hvar Hcon].
    unfold Model.__setattr__. rewrite Hres, Helem, Hid, Hvar, Hcon.
    cbn [negb andb orb when].
    unfold mbind, M_bind. cbn [mret M_ret].
    rewrite (bind_element_returns _ _ _ _ Hbind). cbn [mret M_ret].
    by apply super_setattr_read_only.
Qed.

Lemma read_only_properties_refuse_witness :
  Model.__setattr__ (H := Demo.highs_and_ipopt) "variables"
    (VInstance cls_pandas_DataFrame 5) Demo.m =
    Raises (Exc AttributeError ("property '" ++ "variables" ++ "' of 'Model' object has no setter"))
           Demo.m /\
  Model.__setattr__ (H := Demo.highs_and_ipopt) "constraints" Demo.expression Demo.m =
    Raises (Exc AttributeError ("property '" ++ "constraints" ++ "' of 'Model' object has no setter"))
           (mkState (H := Demo.highs_and_ipopt) (__dict__ Demo.m) ["constraints"]%list
              (fs Demo.m)).
Proof.
  split.
  - apply (proj1 (read_only_properties_refuse (H := Demo.highs_and_ipopt) Demo.m "variables"
                    (VInstance cls_pandas_DataFrame 5)
                    ltac:(apply (bool_decide_unpack _); vm_compute; exact I))).
    reflexivity.
  - apply (proj2 (read_only_properties_refuse (H := Demo.highs_and_ipopt) Demo.m "constraints"
                    Demo.expression
                    ltac:(apply (bool_decide_unpack _); vm_compute; exact I)));
      reflexivity.
Defined.

(** X16. On a constructed Model, an ID-bearing element cannot take the name
    of anything the class already answers to: a method or class attribute
    (such as [write] or [optimize]), a read-only property, or a name that
    every Python object has.  The assignment raises an AssertionError and
    changes nothing. *)
Theorem class_names_are_taken `{Collaborators} (st : State) (name : string)
    (value : Value) :
  constructed st ->
  Model.is_reserved name = false ->
  name ∈ Model.class_attributes \/ name ∈ read_only_properties \/ object_hasattr name = true ->
  isinstance_ModelElementWithId value = true ->
  Model.__setattr__ name value st =
    Raises (Exc AssertionError ("Cannot create " ++ name ++ " since it was already created.")) st.
Proof.
  intros (Hvars & Hcons & Huse) Hres Hname Hid.
  assert (Hhas : Model.hasattr name st = Returns true st).
  { destruct Hvars as [vars Hvars], Hcons as [cons Hcons], Huse as [use Huse].
    destruct (decide (name ∈ read_only_properties)) as [Hro | Hnot].
    - revert Hro. unfold read_only_properties. rewrite !elem_of_cons, elem_of_nil.
      unfold Model.hasattr.
      intros [-> | [-> | [-> | [-> | [-> | []]]]]]; cbn;
        unfold Model.use_var_names, Model.variables, Model.binary_variables,
          Model.integer_variables, Model.constraints, Model.variables, mbind, M_bind, getattr;
        rewrite ?Hvars, ?Hcons, ?Huse; reflexivity.
    - unfold Model.hasattr.
      destruct (Model.property_getter name) as [getter |] eqn:Eget.
      + exfalso. revert Eget. unfold Model.property_getter.
        repeat lazymatch goal with
        | |- context [String.eqb name ?s] =>
            let E := fresh "E" in
            destruct (String.eqb name s) eqn:E;
              [apply String.eqb_eq in E; subst name; intros _;
               first [discriminate Hres
                     | apply Hnot; apply (bool_decide_unpack _); vm_compute; exact I] |]
        end.
        discriminate.
      + destruct Hname as [Hclass | [Hro | Hobject]]; [| done |].
        * rewrite (bool_decide_eq_true_2 _ Hclass).
          by destruct (__dict__ st !! name).
        * rewrite Hobject. rewrite orb_true_r. done. }
  unfold Model.__setattr__.
  rewrite Hres, Hid, (with_id_is_element _ Hid). cbn [negb andb orb when].
  apply bind_raises, bind_raises.
  by rewrite (bind_returns _ _ _ _ _ Hhas).
Qed.

Lemma class_names_are_taken_witness :
  Model.__setattr__ (H := Demo.highs_and_ipopt) "write" Demo.X1 Demo.m =
    Raises (Exc AssertionError ("Cannot create " ++ "write" ++ " since it was already created."))
           Demo.m.
Proof.
  apply (class_names_are_taken (H := Demo.highs_and_ipopt) Demo.m "write" Demo.X1).
  - repeat split; vm_compute; eauto.
  - reflexivity.
  - left. apply (bool_decide_unpack _). vm_compute. exact I.
  - reflexivity.
Defined.

(** ** model.py: objective and sense *)

(** X17. Reading [Model.minimize] returns the objective exactly when the
    sense is MIN, and reading [Model.maximize] exactly when it is MAX.  For
    any other sense, and in particular while the sense is still unset, the
    read raises a ValueError and changes nothing. *)
Theorem sense_getters `{Collaborators} (st : State) (sense : Value) :
  __dict__ st !! "sense" = Some sense ->
  (sense = VObjSense ObjSense.MIN -> Model.minimize st = Model.objective st) /\
  (sense <> VObjSense ObjSense.MIN ->
   Model.minimize st =
     Raises (Exc ValueError "Can't get .minimize in a maximization problem.") st) /\
  (sense = VObjSense ObjSense.MAX -> Model.maximize st = Model.objective st) /\
  (sense <> VObjSense ObjSense.MAX ->
   Model.maximize st =
     Raises (Exc ValueError "Can't get .maximize in a minimization problem.") st).
Proof.
  intros Hsense. unfold Model.minimize, Model.maximize, Model.objective.
  rewrite !(bind_returns _ _ _ _ _ (getattr_some _ _ _ Hsense)).
  repeat split.
  - by intros ->.
  - intros Hne. destruct sense as [| | | | | [] | | | | | | | | |]; try reflexivity.
    by destruct Hne.
  - by intros ->.
  - intros Hne. destruct sense as [| | | | | [] | | | | | | | | |]; try reflexivity.
    by destruct Hne.
Qed.

Lemma sense_getters_witness :
  Model.minimize (H := Demo.highs_and_ipopt) Demo.minimizing =
    Returns (VObjective false 7) Demo.minimizing /\
  Model.minimize (H := Demo.highs_and_ipopt) Demo.m =
    Raises (Exc ValueError "Can't get .minimize in a maximization problem.") Demo.m.
Proof.
  split.
  - rewrite (proj1 (sense_getters (H := Demo.highs_and_ipopt) Demo.minimizing
                      (VObjSense ObjSense.MIN) ltac:(vm_compute; reflexivity)) eq_refl).
    vm_compute. reflexivity.
  - apply (proj1 (proj2 (sense_getters (H := Demo.highs_and_ipopt) Demo.m VNone
                           ltac:(vm_compute; reflexivity)))).
    discriminate.
Defined.



(** ** model.py: what an operation can change *)

Section Steps.
Context `{Collaborators}.
Variable R : State -> State -> Prop.
Hypothesis R_refl : forall st, R st st.
Hypothesis R_trans : forall st1 st2 st3, R st1 st2 -> R st2 st3 -> R st1 st3.
Hypothesis R_dict : forall st w files, R st (mkState (__dict__ st) w files).

Implicit Types (st : State) (value : Value) (name : string).

Lemma steps_reads {A} (m : M A) : reads m -> steps R m.
Proof. intros Hm st. destruct (Hm st) as [[a ->] | [e ->]]; apply R_refl. Qed.

Lemma steps_bind {A B} (m : M A) (k : A -> M B) :
  steps R m -> (forall a, steps R (k a)) -> steps R (m ≫= k).
Proof.
  intros Hm Hk st. specialize (Hm st). unfold mbind, M_bind.
  destruct (m st) as [a st1 | e st1]; [| done].
  eapply R_trans; [exact Hm | apply Hk].
Qed.

Lemma steps_ret {A} (a : A) : steps R (mret a : M A).
Proof. intros st. apply R_refl. Qed.

Lemma steps_raise {A} e : steps R (raise e : M A).
Proof. intros st. apply R_refl. Qed.

Lemma steps_getattr name : steps R (getattr name).
Proof. apply steps_reads, reads_getattr. Qed.

Lemma steps_when (b : bool) body : steps R body -> steps R (when b body).
Proof. intros Hbody. destruct b; [done | apply steps_ret]. Qed.

Lemma steps_in_world f : steps R (in_world f).
Proof.
  intros st. unfold in_world.
  destruct (f (__dict__ st) (world st)) as [[e |] w]; apply R_dict.
Qed.

Lemma steps_in_fs f : steps R (Model.in_fs f).
Proof.
  intros st. unfold Model.in_fs. destruct (f (fs st)); [apply R_dict | apply R_refl].
Qed.

Lemma steps_write file_path pretty : steps R (Model.write file_path pretty).
Proof.
  unfold Model.write.
  apply steps_bind; [apply steps_in_fs |]. intros _.
  apply steps_bind; [apply steps_getattr |]. intros solver_name.
  destruct (Model.eq_str solver_name "ipopt"); [apply steps_raise |].
  apply steps_bind; [apply steps_getattr |]. intros solver_name'.
  apply steps_bind.
  { destruct (Model.eq_str solver_name' "highs"); [| apply steps_ret].
    apply steps_bind; [apply steps_getattr |]. intros flag.
    apply steps_bind; [| intros; apply steps_ret].
    apply steps_when. unfold Model.params_set, Model._set_param.
    apply steps_bind; [apply steps_getattr |]. intros _.
    apply steps_bind; [apply steps_getattr |]. intros handle.
    destruct handle; first [apply steps_raise | apply steps_in_world]. }
  intros kwargs.
  apply steps_bind; [apply steps_getattr |]. intros handle.
  destruct handle; try apply steps_raise.
  intros st. apply (steps_in_fs _ st).
Qed.

(** The assignments that an attribute assignment is made of. *)
Variable writable : string -> Prop.
Hypothesis R_store : forall st name value,
  writable name ->
  R st (mkState (<[name := value]> (__dict__ st)) (world st) (fs st)).
Hypothesis R_append_variable : forall st bound value,
  __dict__ st !! "_variables" = Some (VList bound) ->
  isinstance_Variable value = true ->
  R st (mkState (<["_variables" := VList (bound ++ [value])]> (__dict__ st)) (world st) (fs st)).
Hypothesis R_append_constraint : forall st bound value,
  __dict__ st !! "_constraints" = Some (VList bound) ->
  isinstance_Constraint value = true ->
  R st (mkState (<["_constraints" := VList (bound ++ [value])]> (__dict__ st)) (world st) (fs st)).
Hypothesis R_objective : forall st value,
  isinstance_Objective value = true ->
  R st (mkState (<["_objective" := value]> (__dict__ st)) (world st) (fs st)).
Hypothesis R_sense : forall st member,
  __dict__ st !! "sense" = Some VNone ->
  R st (mkState (<["sense" := VObjSense member]> (__dict__ st)) (world st) (fs st)).

Lemma steps_append_variable value :
  isinstance_Variable value = true -> steps R (append "_variables" value).
Proof.
  intros Hvar st. unfold append, mbind, M_bind, getattr.
  destruct (__dict__ st !! "_variables") as [[] |] eqn:E; try apply R_refl.
  by apply R_append_variable.
Qed.

Lemma steps_append_constraint value :
  isinstance_Constraint value = true -> steps R (append "_constraints" value).
Proof.
  intros Hcon st. unfold append, mbind, M_bind, getattr.
  destruct (__dict__ st !! "_constraints") as [[] |] eqn:E; try apply R_refl.
  by apply R_append_constraint.
Qed.

Lemma steps_objective_setter value : steps R (Model.objective_setter value).
Proof.
  intros st.
  unfold Model.objective_setter, mbind, M_bind, getattr, store, Model.bind_element,
    in_world, Model.Objective, raise, mret, M_ret.
  destruct (__dict__ st !! "_objective") as [current |]; cbn; [| apply R_refl].
  destruct (negb (is_None current) && _); cbn; [apply R_refl |].
  destruct (isinstance_Objective value) eqn:Hobj; cbn.
  - destruct (on_add_to_model _ _ _ _) as [[e |] w]; cbn;
      (eapply R_trans; [by apply (R_objective st value) | apply R_dict]).
  - destruct (Objective_new value (world st)) as [[[c id] | e] w1]; cbn; [| apply R_dict].
    destruct (on_add_to_model _ _ _ _) as [[e |] w2]; cbn;
      (eapply R_trans; [apply (R_dict st w1 (fs st)) |];
       eapply R_trans;
         [by apply (R_objective (mkState (__dict__ st) w1 (fs st)) (VObjective c id))
         | apply R_dict]).
Qed.

Lemma steps_sense_setter (member : ObjSense.t) (message : string) value :
  steps R
    (sense ← getattr "sense";
     when (is_None sense) (store "sense" (VObjSense member)) ;;
     sense ← getattr "sense";
     if negb (eq_ObjSense sense member)
     then raise (Exc ValueError message)
     else Model.objective_setter value).
Proof.
  assert (Hrest : steps R
            (sense ← getattr "sense";
             if negb (eq_ObjSense sense member)
             then raise (Exc ValueError message)
             else Model.objective_setter value)).
  { apply steps_bind; [apply steps_getattr |]. intros sense.
    destruct (negb _); [apply steps_raise | apply steps_objective_setter]. }
  intros st. destruct (__dict__ st !! "sense") as [sense |] eqn:Esense.
  - rewrite (bind_returns _ _ _ _ _ (getattr_some _ _ _ Esense)).
    destruct sense; cbn [is_None when];
      try (rewrite (bind_returns _ _ _ tt st) by reflexivity; apply Hrest).
    erewrite bind_returns; [| reflexivity].
    eapply R_trans; [by apply (R_sense st member) | apply Hrest].
  - erewrite bind_raises; [apply R_refl |]. unfold getattr. by rewrite Esense.
Qed.

Lemma steps_super_setattr name value :
  (Model.property_setter name = None -> Model.property_getter name = None -> writable name) ->
  steps R (Model.super__setattr__ name value).
Proof.
  intros Hwritable. unfold Model.super__setattr__.
  destruct (Model.property_setter name) as [setter |] eqn:Eset.
  - revert Eset. unfold Model.property_setter.
    repeat (destruct (String.eqb name _);
            [intros [= <-];
             first [apply steps_objective_setter | apply steps_sense_setter] |]).
    discriminate.
  - destruct (Model.property_getter name) eqn:Eget; [apply steps_raise |].
    intros st. apply R_store. by apply Hwritable.
Qed.

Lemma steps_setattr name value :
  (Model.property_setter name = None -> Model.property_getter name = None -> writable name) ->
  steps R (Model.__setattr__ name value).
Proof.
  intros Hwritable. unfold Model.__setattr__.
  destruct (negb (Model.is_reserved name) && _); [apply steps_raise |].
  apply steps_bind; [| intros _; by apply steps_super_setattr].
  apply steps_when. apply steps_bind.
  { apply steps_when. apply steps_bind; [apply steps_reads, reads_hasattr |].
    intros b. apply steps_when, steps_raise. }
  intros _. apply steps_bind; [apply steps_in_world |].
  intros _. destruct (isinstance_Variable value) eqn:Hvar.
  - apply steps_bind; [by apply steps_append_variable |].
    intros _. apply steps_bind; [apply steps_getattr |].
    intros var_map. apply steps_when, steps_in_world.
  - destruct (isinstance_Constraint value) eqn:Hcon; [| apply steps_ret].
    by apply steps_append_constraint.
Qed.

End Steps.

Section Relations.
Context `{Collaborators}.

Implicit Types (st : State).

Lemma collections_grow_refl st : collections_grow st st.
Proof.
  split; intros bound Hbound; exists []; by rewrite app_nil_r.
Qed.

Lemma collections_grow_trans st1 st2 st3 :
  collections_grow st1 st2 -> collections_grow st2 st3 -> collections_grow st1 st3.
Proof.
  intros [Hv12 Hc12] [Hv23 Hc23]. split; intros bound Hbound.
  - destruct (Hv12 _ Hbound) as (more1 & H2 & Hall1).
    destruct (Hv23 _ H2) as (more2 & H3 & Hall2).
    exists (more1 ++ more2)%list. rewrite app_assoc. split; [done |]. by apply Forall_app.
  - destruct (Hc12 _ Hbound) as (more1 & H2 & Hall1).
    destruct (Hc23 _ H2) as (more2 & H3 & Hall2).
    exists (more1 ++ more2)%list. rewrite app_assoc. split; [done |]. by apply Forall_app.
Qed.

Lemma collections_grow_same st st' :
  __dict__ st' !! "_variables" = __dict__ st !! "_variables" ->
  __dict__ st' !! "_constraints" = __dict__ st !! "_constraints" ->
  collections_grow st st'.
Proof.
  intros Hv Hc. split; intros bound Hbound; exists [];
    rewrite app_nil_r, ?Hv, ?Hc; by split.
Qed.

Lemma collections_grow_variable st bound value :
  __dict__ st !! "_variables" = Some (VList bound) ->
  isinstance_Variable value = true ->
  collections_grow st
    (mkState (<["_variables" := VList (bound ++ [value])]> (__dict__ st)) (world st) (fs st)).
Proof.
  intros Hbound Hvar. split; intros bound' Hbound'; cbn.
  - rewrite Hbound in Hbound'. injection Hbound' as <-.
    exists [value]. rewrite lookup_insert_eq. split; [done |]. by apply Forall_singleton.
  - exists []. rewrite app_nil_r, lookup_insert_ne by done. by split.
Qed.

Lemma collections_grow_constraint st bound value :
  __dict__ st !! "_constraints" = Some (VList bound) ->
  isinstance_Constraint value = true ->
  collections_grow st
    (mkState (<["_constraints" := VList (bound ++ [value])]> (__dict__ st)) (world st) (fs st)).
Proof.
  intros Hbound Hcon. split; intros bound' Hbound'; cbn.
  - exists []. rewrite app_nil_r, lookup_insert_ne by done. by split.
  - rewrite Hbound in Hbound'. injection Hbound' as <-.
    exists [value]. rewrite lookup_insert_eq. split; [done |]. by apply Forall_singleton.
Qed.

Lemma setattr_grows_collections (name : string) (value : Value) :
  name <> "_variables" -> name <> "_constraints" ->
  steps collections_grow (Model.__setattr__ name value).
Proof.
  intros Hv Hc.
  apply (steps_setattr collections_grow collections_grow_refl collections_grow_trans)
    with (writable := fun n => n <> "_variables" /\ n <> "_constraints").
  - intros st w files. by apply collections_grow_same.
  - intros st n v [Hnv Hnc].
    apply collections_grow_same; cbn; by rewrite lookup_insert_ne.
  - apply collections_grow_variable.
  - apply collections_grow_constraint.
  - intros st v _. apply collections_grow_same; cbn; by rewrite lookup_insert_ne.
  - intros st member _. apply collections_grow_same; cbn; by rewrite lookup_insert_ne.
  - done.
Qed.

Lemma sense_kept_same st st' :
  __dict__ st' !! "sense" = __dict__ st !! "sense" -> sense_kept st st'.
Proof. intros Hsame member. by rewrite Hsame. Qed.

Lemma setattr_keeps_sense (name : string) (value : Value) :
  name <> "sense" -> steps sense_kept (Model.__setattr__ name value).
Proof.
  intros Hname.
  apply (steps_setattr sense_kept) with (writable := fun n => n <> "sense").
  - intros st member. done.
  - intros st1 st2 st3 H12 H23 member Hm. by apply H23, H12.
  - intros st w files. by apply sense_kept_same.
  - intros st n v Hn. apply sense_kept_same. cbn. by rewrite lookup_insert_ne.
  - intros st bound v _ _. apply sense_kept_same. cbn. by rewrite lookup_insert_ne.
  - intros st bound v _ _. apply sense_kept_same. cbn. by rewrite lookup_insert_ne.
  - intros st v _. apply sense_kept_same. cbn. by rewrite lookup_insert_ne.
  - intros st member Hunset member' Hset. congruence.
  - done.
Qed.

Lemma write_same_attributes file_path pretty :
  steps same_attributes (Model.write file_path pretty).
Proof.
  apply (steps_write same_attributes).
  - intros st. reflexivity.
  - intros st1 st2 st3 H12 H23. unfold same_attributes in *. congruence.
  - intros st w files. reflexivity.
Qed.

End Relations.

(** X19. Assigning an attribute never removes or reorders what is bound:
    whatever the name (other than the private lists themselves) and the
    value, and whether the assignment returns or raises, the variables
    afterwards are the variables before followed by Variables only, and the
    constraints are the constraints before followed by Constraints only. *)
Theorem assignment_grows_collections `{Collaborators} (st : State) (name : string)
    (value : Value) :
  name <> "_variables" ->
  name <> "_constraints" ->
  collections_grow st (final_state (Model.__setattr__ name value st)).
Proof. intros Hv Hc. by apply setattr_grows_collections. Qed.

Lemma assignment_grows_collections_witness :
  collections_grow Demo.with_X
    (final_state (Model.__setattr__ (H := Demo.highs_and_ipopt) "Y" Demo.X2 Demo.with_X)).
Proof.
  apply (assignment_grows_collections (H := Demo.highs_and_ipopt) Demo.with_X "Y" Demo.X2);
    discriminate.
Defined.

(** X20. In every state of a Model reached by constructing it, assigning
    attributes other than the private lists, and writing it, the variables
    are a list of Variables and the constraints a list of Constraints. *)
Theorem assembled_collections_well_typed `{Collaborators} (st : State) :
  assembled st -> collections_well_typed st.
Proof.
  induction 1 as [? ? ? ? ? ? ? ? st Hnew
                 | st name value _ IH Hv Hc
                 | st file_path pretty _ IH].
  - apply new_returns in Hnew as (model & sn & sense' & vm & _ & Hdict).
    exists [], []. rewrite Hdict. repeat split; by simplify_map_eq.
  - destruct IH as (variables & constraints & Hvars & Hallv & Hcons & Hallc).
    destruct (setattr_grows_collections name value Hv Hc st) as [Hgv Hgc].
    destruct (Hgv _ Hvars) as (morev & Hvars' & Hmorev).
    destruct (Hgc _ Hcons) as (morec & Hcons' & Hmorec).
    exists (variables ++ morev)%list, (constraints ++ morec)%list.
    repeat split; [done | by apply Forall_app | done | by apply Forall_app].
  - destruct IH as (variables & constraints & Hvars & Hallv & Hcons & Hallc).
    pose proof (write_same_attributes file_path pretty st) as Hsame.
    unfold same_attributes in Hsame.
    exists variables, constraints. rewrite Hsame. by repeat split.
Qed.

Lemma assembled_collections_well_typed_witness :
  collections_well_typed Demo.with_X.
Proof.
  apply (assembled_collections_well_typed (H := Demo.highs_and_ipopt) Demo.with_X).
  apply (assembled_setattr (H := Demo.highs_and_ipopt) Demo.m "X" Demo.X1);
    [| discriminate | discriminate].
  apply (assembled_new (H := Demo.highs_and_ipopt) Config.at_import VNone None None
           (VBool false) VNone []%list ∅ Demo.m).
  vm_compute. reflexivity.
Defined.

(** X21. The sense of a Model never flips: once it is MIN or MAX, no
    attribute assignment other than one to [sense] itself changes it, be it
    to [minimize], [maximize], [objective] or any other name, and whether
    the assignment returns or raises. *)
Theorem sense_never_flips `{Collaborators} (st : State) (name : string)
    (value : Value) (member : ObjSense.t) :
  name <> "sense" ->
  __dict__ st !! "sense" = Some (VObjSense member) ->
  __dict__ (final_state (Model.__setattr__ name value st)) !! "sense"
    = Some (VObjSense member).
Proof. intros Hname Hsense. by apply (setattr_keeps_sense name value Hname st). Qed.

Lemma sense_never_flips_witness :
  __dict__ (final_state (Model.__setattr__ (H := Demo.highs_and_ipopt) "maximize"
                           Demo.expression Demo.minimizing)) !! "sense"
    = Some (VObjSense ObjSense.MIN).
Proof.
  apply (sense_never_flips (H := Demo.highs_and_ipopt) Demo.minimizing "maximize"
           Demo.expression ObjSense.MIN).
  - discriminate.
  - vm_compute. reflexivity.
Defined.

(** X22. [Model.write] never changes an attribute of the Model, for any
    solver and any outcome; and when the parent directory cannot be
    created, it raises the error of the creation at once, with the world
    and the file system untouched: nothing is written and the solver is not
    called. *)
Theorem write_leaves_the_model `{Collaborators} (st : State)
    (file_path : pathlib.Path) (pretty : bool) :
  __dict__ (final_state (Model.write file_path pretty st)) = __dict__ st /\
  (forall e,
     pathlib.mkdir_parents true (pathlib.parent file_path) (fs st) = Err e ->
     Model.write file_path pretty st = Raises e st).
Proof.
  split; [apply (write_same_attributes file_path pretty st) |].
  intros e Hmk. unfold Model.write. apply bind_raises.
  unfold Model.in_fs. by rewrite Hmk.
Qed.

Lemma write_leaves_the_model_witness :
  Model.write (H := Demo.highs_and_ipopt) ["model.lp"; "out"] true
    (Demo.model_state (Some "highs") Demo.out_is_a_file) =
    Raises (Exc FileExistsError "File exists")
           (Demo.model_state (Some "highs") Demo.out_is_a_file).
Proof.
  apply (proj2 (write_leaves_the_model (H := Demo.highs_and_ipopt)
                  (Demo.model_state (Some "highs") Demo.out_is_a_file)
                  ["model.lp"; "out"] true)).
  vm_compute. reflexivity.
Defined.

(** ** model.py: attributes of the solver *)

(** X23. Setting or getting a model attribute under a name that the adapter
    does not standardise: on a solver other than Gurobi the KeyError of the
    lookup reaches the caller and nothing has happened; on Gurobi the name
    is handed to the raw attribute interface instead.  A standardised
    name, set or got, whose adapter call does not raise a KeyError never
    reaches the raw interface, on Gurobi or elsewhere: the outcome is the
    one of the adapter call. *)
Theorem unknown_attribute_names `{AdapterAttributes} (st : State) (model : poi.Model)
    (solver_name : Value) (name : string) (value : Value) :
  __dict__ st !! "poi" = Some (VPoi model) ->
  __dict__ st !! "solver_name" = Some solver_name ->
  (ModelAttribute_getitem name = None ->
   Model.eq_str solver_name "gurobi" = false ->
   ModelAttributes._set_attr name value st =
     Raises (Exc ModelAttributes.KeyError name) st /\
   ModelAttributes._get_attr name st =
     Raises (Exc ModelAttributes.KeyError name) st) /\
  (ModelAttribute_getitem name = None ->
   Model.eq_str solver_name "gurobi" = true ->
   ModelAttributes._set_attr name value st =
     in_world (fun _ => set_model_raw_attribute model name value) st /\
   ModelAttributes._get_attr name st =
     ModelAttributes.in_world_value (get_model_raw_attribute model name) st) /\
  (forall attribute,
     ModelAttribute_getitem name = Some attribute ->
     (forall e w, set_model_attribute model attribute value (world st) = (Some e, w) ->
                  ModelAttributes.is_KeyError e = false) ->
     ModelAttributes._set_attr name value st =
       in_world (fun _ => set_model_attribute model attribute value) st) /\
  (forall attribute,
     ModelAttribute_getitem name = Some attribute ->
     (forall e w, get_model_attribute model attribute (world st) = (Err e, w) ->
                  ModelAttributes.is_KeyError e = false) ->
     ModelAttributes._get_attr name st =
       ModelAttributes.in_world_value (get_model_attribute model attribute) st).
Proof.
  intros Hpoi Hsolver.
  assert (Hhandle : ModelAttributes.poi_handle st = Returns model st).
  { unfold ModelAttributes.poi_handle.
    by rewrite (bind_returns _ _ _ _ _ (getattr_some _ _ _ Hpoi)). }
  split; [| split; [| split]].
  - intros Hunknown Hother.
    split;
      unfold ModelAttributes._set_attr, ModelAttributes._get_attr,
        ModelAttributes.try_except_KeyError, mbind, M_bind;
      rewrite Hhandle; unfold ModelAttributes.ModelAttribute_lookup;
      rewrite Hunknown; unfold raise; cbv beta iota;
      cbn [ModelAttributes.is_KeyError exc_class ModelAttributes.KeyError];
      rewrite String.eqb_refl; unfold getattr; rewrite Hsolver; cbv beta iota;
      by rewrite Hother.
  - intros Hunknown Hgurobi.
    split;
      unfold ModelAttributes._set_attr, ModelAttributes._get_attr,
        ModelAttributes.try_except_KeyError, mbind, M_bind;
      rewrite Hhandle; unfold ModelAttributes.ModelAttribute_lookup;
      rewrite Hunknown; unfold raise; cbv beta iota;
      cbn [ModelAttributes.is_KeyError exc_class ModelAttributes.KeyError];
      rewrite String.eqb_refl; unfold getattr at 1; rewrite Hsolver; cbv beta iota;
      rewrite Hgurobi, Hhandle; reflexivity.
  - intros attribute Hknown Hclean.
    unfold ModelAttributes._set_attr, ModelAttributes.try_except_KeyError.
    rewrite (bind_returns _ _ _ _ _ Hhandle).
    unfold ModelAttributes.ModelAttribute_lookup. rewrite Hknown.
    rewrite (bind_returns _ _ _ attribute st) by reflexivity.
    unfold in_world.
    destruct (set_model_attribute model attribute value (world st)) as [[e |] w] eqn:Ecall;
      [| done].
    by rewrite (Hclean e w eq_refl).
  - intros attribute Hknown Hclean.
    unfold ModelAttributes._get_attr, ModelAttributes.try_except_KeyError.
    rewrite (bind_returns _ _ _ _ _ Hhandle).
    unfold ModelAttributes.ModelAttribute_lookup. rewrite Hknown.
    rewrite (bind_returns _ _ _ attribute st) by reflexivity.
    unfold ModelAttributes.in_world_value.
    destruct (get_model_attribute model attribute (world st)) as [[v | e] w] eqn:Ecall;
      [done |].
    by rewrite (Hclean e w eq_refl).
Qed.

Lemma unknown_attribute_names_witness :
  (ModelAttributes._set_attr (H0 := DemoAttributes.attributes) "Pi" (VInt 1) Demo.m =
     Raises (Exc ModelAttributes.KeyError "Pi") Demo.m /\
   ModelAttributes._get_attr (H0 := DemoAttributes.attributes) "Pi" Demo.m =
     Raises (Exc ModelAttributes.KeyError "Pi") Demo.m) /\
  (ModelAttributes._set_attr (H0 := DemoAttributes.attributes) "Pi" (VInt 1)
     DemoAttributes.gurobi_model =
     Returns tt (mkState (H := Demo.highs_and_ipopt)
                   (__dict__ DemoAttributes.gurobi_model) ["Pi"]%list ∅) /\
   ModelAttributes._get_attr (H0 := DemoAttributes.attributes) "Pi"
     DemoAttributes.gurobi_model =
     Returns (VStr "Pi") DemoAttributes.gurobi_model) /\
  ModelAttributes._set_attr (H0 := DemoAttributes.attributes) "ObjectiveValue" (VInt 1)
    Demo.m =
    Raises (Exc RuntimeError "read-only attribute") Demo.m /\
  ModelAttributes._get_attr (H0 := DemoAttributes.attributes) "ObjectiveValue"
    DemoAttributes.gurobi_model =
    Returns (VInt 42) DemoAttributes.gurobi_model.
Proof.
  split; [| split; [| split]].
  - apply (proj1 (unknown_attribute_names (H0 := DemoAttributes.attributes) Demo.m
                    (poi.mkModel "highs" [poi.mkVariableIndex 0 1 1 "ONE"])
                    (VStr "highs") "Pi" (VInt 1)
                    ltac:(vm_compute; reflexivity) ltac:(vm_compute; reflexivity)));
      reflexivity.
  - apply (proj1 (proj2 (unknown_attribute_names (H0 := DemoAttributes.attributes)
                           DemoAttributes.gurobi_model
                           (poi.mkModel "highs" [poi.mkVariableIndex 0 1 1 "ONE"])
                           (VStr "gurobi") "Pi" (VInt 1)
                           ltac:(vm_compute; reflexivity) ltac:(vm_compute; reflexivity))));
      reflexivity.
  - apply (proj1 (proj2 (proj2 (unknown_attribute_names (H0 := DemoAttributes.attributes)
                           Demo.m
                           (poi.mkModel "highs" [poi.mkVariableIndex 0 1 1 "ONE"])
                           (VStr "highs") "ObjectiveValue" (VInt 1)
                           ltac:(vm_compute; reflexivity) ltac:(vm_compute; reflexivity))))
             tt).
    + reflexivity.
    + intros e w [= <- _]. reflexivity.
  - apply (proj2 (proj2 (proj2 (unknown_attribute_names (H0 := DemoAttributes.attributes)
                           DemoAttributes.gurobi_model
                           (poi.mkModel "highs" [poi.mkVariableIndex 0 1 1 "ONE"])
                           (VStr "gurobi") "ObjectiveValue" (VInt 1)
                           ltac:(vm_compute; reflexivity) ltac:(vm_compute; reflexivity))))
             tt).
    + reflexivity.
    + intros e w [=].
Defined.

Section InitAttributes.
Context `{Collaborators}.

(** What [__init__] stores under [var_map]. *)
Lemma new_var_map Config (name : Value) solver solver_env (use_var_names sense : Value)
    w files st :
  Model.new Config name solver solver_env use_var_names sense w files = Returns tt st ->
  exists flag var_map,
    Config !! "print_uses_variable_names" = Some flag /\
    __dict__ st !! "var_map" = Some var_map /\
    (if truthy flag then exists id, var_map = VNamedVariableMapper id else var_map = VNone).
Proof.
  unfold Model.new, Model.__init__. intros Hrun.
  apply bind_returns_inv in Hrun as ([model solver_name] & st1 & Hcreate & Hrun).
  unfold lift in Hcreate.
  destruct (Model.create_poi_model Config solver solver_env) as [created | e];
    [| discriminate].
  injection Hcreate as -> <-.
  repeat (apply bind_returns_inv in Hrun as ([] & ? & Hstep & Hrun);
          rewrite setattr_plain in Hstep by reflexivity;
          injection Hstep as <-; cbn [__dict__ world fs] in Hrun).
  apply bind_returns_inv in Hrun as (stored & st2 & Hsense & Hrun).
  assert (world st2 = w /\ fs st2 = files) as [Hw2 Hf2].
  { destruct (negb (is_None sense)); [| by injection Hsense as _ <-].
    unfold lift in Hsense. destruct (Model.ObjSense_call sense); [| discriminate].
    by injection Hsense as _ <-. }
  repeat (apply bind_returns_inv in Hrun as ([] & ? & Hstep & Hrun);
          rewrite setattr_plain in Hstep by reflexivity;
          injection Hstep as <-; cbn [__dict__ world fs] in Hrun).
  apply bind_returns_inv in Hrun as (flag & st3 & Hflag & Hrun).
  unfold lift in Hflag.
  destruct (Config !! "print_uses_variable_names") as [flag' |] eqn:Eflag; [| discriminate].
  injection Hflag as -> <-.
  apply bind_returns_inv in Hrun as (var_map & st4 & Hmap & Hrun).
  exists flag, var_map. split; [done |].
  assert (if truthy flag then exists id, var_map = VNamedVariableMapper id
          else var_map = VNone) as Hkind.
  { destruct (truthy flag); [| by injection Hmap as <- _].
    unfold Model.NamedVariableMapper in Hmap. cbn in Hmap.
    destruct (NamedVariableMapper_new _) as [id w']. injection Hmap as <- _. eauto. }
  split; [| done]. clear Hkind Hmap.
  repeat (apply bind_returns_inv in Hrun as ([] & ? & Hstep & Hrun);
          rewrite setattr_plain in Hstep by reflexivity;
          injection Hstep as <-; cbn [__dict__ world fs] in Hrun).
  rewrite setattr_plain in Hrun by reflexivity. injection Hrun as <-.
  cbn [__dict__]. by simplify_map_eq.
Qed.

End InitAttributes.

(** X24. A Model that has just been constructed is empty and keeps what it
    was given: it has no constraints and no objective, its name and its
    [use_var_names] flag are the arguments of the constructor, and it holds
    a variable mapper exactly when [Config.print_uses_variable_names] was
    true at the time of the construction. *)
Theorem constructed_model_is_empty `{Collaborators} (Config : gmap string Value)
    (name : Value) (solver : option string) (solver_env : option (list (string * string)))
    (use_var_names sense : Value) (w : World) (files : gmap (list string) pathlib.Node)
    (st : State) :
  Model.new Config name solver solver_env use_var_names sense w files = Returns tt st ->
  Model.constraints st = Returns (VList []) st /\
  Model.objective st = Returns VNone st /\
  Model.use_var_names st = Returns use_var_names st /\
  __dict__ st !! "name" = Some name /\
  exists flag var_map,
    Config !! "print_uses_variable_names" = Some flag /\
    __dict__ st !! "var_map" = Some var_map /\
    (truthy flag = true -> exists id, var_map = VNamedVariableMapper id) /\
    (truthy flag = false -> var_map = VNone).
Proof.
  intros Hnew.
  pose proof (new_var_map _ _ _ _ _ _ _ _ _ Hnew) as (flag & var_map & Hflag & Hmap & Hkind).
  apply new_returns in Hnew as (model & sn & sense' & vm & _ & Hdict).
  unfold Model.constraints, Model.objective, Model.use_var_names.
  repeat split; try (apply getattr_some; rewrite Hdict; by simplify_map_eq).
  - rewrite Hdict. by simplify_map_eq.
  - exists flag, var_map. repeat split; try done.
    + intros Htrue. by rewrite Htrue in Hkind.
    + intros Hfalse. by rewrite Hfalse in Hkind.
Qed.

Lemma constructed_model_is_empty_witness :
  Model.constraints (H := Demo.highs_and_ipopt) Demo.m = Returns (VList []) Demo.m /\
  Model.objective (H := Demo.highs_and_ipopt) Demo.m = Returns VNone Demo.m /\
  Model.use_var_names (H := Demo.highs_and_ipopt) Demo.m = Returns (VBool false) Demo.m /\
  __dict__ Demo.m !! "name" = Some VNone /\
  exists flag var_map,
    Config.at_import !! "print_uses_variable_names" = Some flag /\
    __dict__ Demo.m !! "var_map" = Some var_map /\
    (truthy flag = true -> exists id, var_map = VNamedVariableMapper id) /\
    (truthy flag = false -> var_map = VNone).
Proof.
  apply (constructed_model_is_empty (H := Demo.highs_and_ipopt) Config.at_import VNone
           None None (VBool false) VNone []%list ∅ Demo.m).
  vm_compute. reflexivity.
Defined.


